(** * Document persistence and conflict resolution: context, autosave, manager

    A shallow embedding of the document context
    ([packages/docregistry/src/context.ts]), of the autosave handler
    ([SaveHandler]) and of the document manager ([DocumentManager]).

    Promises are modelled as programs that ask the environment (the
    contents service, the dialog) for a reply and continue with it; the
    mutable fields of the context are threaded through as a record.  A
    rejected promise keeps the state reached when it was rejected, as a
    JavaScript exception keeps the assignments made before it was thrown. *)

From Stdlib Require Import String Ascii List ZArith Bool Lia.
Import ListNotations.

Local Open Scope string_scope.
Local Open Scope Z_scope.

(** ** JavaScript values used by the code *)

(** [content: any] of a contents model: [undefined] when the content was
    not requested, a string for the text and base64 formats, a JSON
    document (kept in serialized form, the context never looks inside)
    for the json format. *)
Inductive JSONValue : Type :=
| JUndefined
| JString (s : string)
| JObject (serialized : string).

(** Truthiness of a [string | undefined]. *)
Definition truthy (v : option string) : bool :=
  match v with
  | None => false
  | Some s => negb (String.eqb s "")
  end.

(** Strict equality [===] on [string | undefined]. *)
Definition strict_eq (a b : option string) : bool :=
  match a, b with
  | None, None => true
  | Some x, Some y => String.eqb x y
  | _, _ => false
  end.

(** What a promise can be rejected with. *)
Inductive Rejection : Type :=
| ResponseError (status : Z) (text : string) (message : string)
| JsError (message : string)
| Reason (s : string).

(** [err.response && err.response.status === n] *)
Definition response_status_is (n : Z) (err : Rejection) : bool :=
  match err with
  | ResponseError status _ _ => Z.eqb status n
  | _ => false
  end.

(** [err.message] *)
Definition message_of (err : Rejection) : option string :=
  match err with
  | ResponseError _ _ m => Some m
  | JsError m => Some m
  | Reason _ => None
  end.

(** ** The contents service *)

Module Contents.

Record IModel : Type := {
  name : string;
  path : string;
  type : string;
  writable : bool;
  created : string;
  last_modified : option string;
  mimetype : string;
  content : JSONValue;
  format : option string
}.

Record ICheckpointModel : Type := {
  id : string;
  checkpoint_last_modified : string
}.

Record IFetchOptions : Type := {
  fetch_type : option string;
  fetch_format : option string;
  fetch_content : bool
}.

Record ISaveOptions : Type := {
  save_type : string;
  save_format : string;
  save_content : JSONValue
}.

End Contents.

(** ** Requests, replies and asynchronous programs *)

(** The asynchronous calls the context waits for. *)
Inductive Request : Type -> Type :=
| Contents_get (path : string) (opts : Contents.IFetchOptions)
    : Request Contents.IModel
| Contents_save (path : string) (opts : Contents.ISaveOptions)
    : Request Contents.IModel
| Contents_listCheckpoints (path : string)
    : Request (list Contents.ICheckpointModel)
| Contents_createCheckpoint (path : string)
    : Request Contents.ICheckpointModel
| ShowDialog (title : string) (buttons : list string)
    : Request string.

(** A reply settles the awaited promise.  While the context was
    suspended its owner may have disposed it: [disposed_meanwhile]. *)
Record Reply (R : Type) : Type := {
  disposed_meanwhile : bool;
  settled : Rejection + R
}.
Arguments disposed_meanwhile {R} _.
Arguments settled {R} _.

Definition fulfils {R : Type} (rp : Reply R) : bool :=
  match settled rp with inr _ => true | inl _ => false end.

(** Calls the code does not wait for. *)
Inductive Effect : Type :=
| Console_warn
| Dialog_opened (title : string) (body : option string) (buttons : list string).

Inductive Prog (A : Type) : Type :=
| Ret (a : A)
| Fire (e : Effect) (k : Prog A)
| Vis {R : Type} (q : Request R) (k : Reply R -> Prog A).
Arguments Ret {A} a.
Arguments Fire {A} e k.
Arguments Vis {A R} q k.

Fixpoint bindP {A B : Type} (p : Prog A) (f : A -> Prog B) : Prog B :=
  match p with
  | Ret a => f a
  | Fire e k => Fire e (bindP k f)
  | Vis q k => Vis q (fun rp => bindP (k rp) f)
  end.

(** ** Running a program against an environment *)

Inductive Event : Type :=
| Called {R : Type} (q : Request R) (rp : Reply R)
| Fired (e : Effect).

Definition Handler (W : Type) : Type :=
  forall R : Type, Request R -> W -> Reply R * W.

Fixpoint run {W A : Type} (h : Handler W) (p : Prog A) (w : W)
  : A * W * list Event :=
  match p with
  | Ret a => (a, w, [])
  | Fire e k =>
      let '(a, w', tr) := run h k w in (a, w', Fired e :: tr)
  | Vis q k =>
      let '(rp, w1) := h _ q w in
      let '(a, w', tr) := run h (k rp) w1 in
      (a, w', Called q rp :: tr)
  end.

Definition result_of {W A : Type} (x : A * W * list Event) : A := fst (fst x).
Definition world_of {W A : Type} (x : A * W * list Event) : W := snd (fst x).
Definition trace_of {W A : Type} (x : A * W * list Event) : list Event := snd x.

(** Observations on traces. *)

Definition is_write (ev : Event) : bool :=
  match ev with
  | Called (Contents_save _ _) _ => true
  | _ => false
  end.

Definition is_conflict_dialog (ev : Event) : bool :=
  match ev with
  | Called (ShowDialog title _) _ => String.eqb title "File Changed"
  | _ => false
  end.

Definition is_error_dialog (title : string) (ev : Event) : bool :=
  match ev with
  | Fired (Dialog_opened t _ _) => String.eqb t title
  | _ => false
  end.

Definition is_checkpoint_created (ev : Event) : bool :=
  match ev with
  | Called (Contents_createCheckpoint _) rp => fulfils rp
  | _ => false
  end.

Definition is_checkpoint_request (ev : Event) : bool :=
  match ev with
  | Called (Contents_createCheckpoint _) _ => true
  | _ => false
  end.

Definition count (f : Event -> bool) (tr : list Event) : nat :=
  length (filter f tr).

(** ** Collaborators of the context *)

(** What the code takes from the JavaScript platform and from path
    utilities: [new Date(s).getTime()] ([None] is [NaN]), the value of
    [JSON.parse(text).message] inside its [try] ([None] when it throws),
    and [PathExt.basename(contents.localPath(p))]. *)
Record Platform : Type := {
  Date_getTime : string -> option Z;
  JSON_message : string -> option string;
  localName : string -> string
}.

(** Modelled from the spec: the document model (the model classes of the
    registry are not part of the sources at hand): it holds the content,
    a [dirty] flag and the serialization methods. *)
Record DocumentModel : Type := {
  value : JSONValue;
  dirty : bool;
  readOnly : bool;
  isCollaborative : bool;
  model_isDisposed : bool
}.

Definition set_dirty (b : bool) (m : DocumentModel) : DocumentModel :=
  {| value := value m; dirty := b; readOnly := readOnly m;
     isCollaborative := isCollaborative m;
     model_isDisposed := model_isDisposed m |}.

Definition fromJSON (v : JSONValue) (m : DocumentModel) : DocumentModel :=
  {| value := v; dirty := dirty m; readOnly := readOnly m;
     isCollaborative := isCollaborative m;
     model_isDisposed := model_isDisposed m |}.

Definition fromString (s : string) (m : DocumentModel) : DocumentModel :=
  fromJSON (JString s) m.

Definition toJSON (m : DocumentModel) : JSONValue := value m.

Definition toString (m : DocumentModel) : string :=
  match value m with
  | JUndefined => ""
  | JString s => s
  | JObject s => s
  end.

Definition model_dispose (m : DocumentModel) : DocumentModel :=
  {| value := value m; dirty := dirty m; readOnly := readOnly m;
     isCollaborative := isCollaborative m; model_isDisposed := true |}.

Record IModelFactory : Type := {
  factory_name : string;
  fileFormat : string;
  contentType : string
}.

(** Modelled from the spec: the client session (its class is not part of
    the sources at hand): it exposes [path] get/set and a property-changed
    signal the context listens to. *)
Record ClientSession : Type := {
  session_path : string;
  session_name : string;
  session_isDisposed : bool
}.

(** ** Line endings *)

Definition CR : ascii := "013"%char.
Definition LF : ascii := "010"%char.

(** [content.indexOf('\r') !== -1] *)
Fixpoint has_CR (s : string) : bool :=
  match s with
  | EmptyString => false
  | String c rest => Ascii.eqb c CR || has_CR rest
  end.

(** [content.replace(/\r\n|\r/g, '\n')]: scanning from the left, a CR
    followed by LF is replaced as a pair, any other CR alone. *)
Fixpoint replace_line_endings (s : string) : string :=
  match s with
  | EmptyString => EmptyString
  | String c rest =>
      if Ascii.eqb c CR then
        match rest with
        | String d rest' =>
            if Ascii.eqb d LF
            then String LF (replace_line_endings rest')
            else String LF (replace_line_endings rest)
        | EmptyString => String LF EmptyString
        end
      else String c (replace_line_endings rest)
  end.

(** [updateModel(model, contents)]; a thrown [TypeError] leaves the model
    as it was. *)
Definition updateModel (model : DocumentModel) (contents : Contents.IModel)
  : Rejection + DocumentModel :=
  if strict_eq (Contents.format contents) (Some "json") then
    inr (set_dirty false (fromJSON (Contents.content contents) model))
  else
    match Contents.content contents with
    | JString content =>
        if has_CR content
        then inr (set_dirty true
                    (fromString (replace_line_endings content) model))
        else inr (set_dirty false (fromString content model))
    | JUndefined =>
        inl (JsError "Cannot read property 'indexOf' of undefined")
    | JObject _ =>
        inl (JsError "content.indexOf is not a function")
    end.

(** ** The document context *)

(** The fields of [Private.Context].  A signal is represented by the
    list of the values it has emitted, latest first. *)
Record Context : Type := {
  _path : string;
  _contentsModel : Contents.IModel;
  _isDisposed : bool;
  _hasCheckpointed : bool;
  model : DocumentModel;
  session : ClientSession;
  factory : IModelFactory;
  _pathChanged : list string;
  _fileChanged : list Contents.IModel;
  _disposed : nat
}.

Definition set_path (p : string) (c : Context) : Context :=
  {| _path := p; _contentsModel := _contentsModel c;
     _isDisposed := _isDisposed c; _hasCheckpointed := _hasCheckpointed c;
     model := model c; session := session c; factory := factory c;
     _pathChanged := _pathChanged c; _fileChanged := _fileChanged c;
     _disposed := _disposed c |}.

Definition set_contentsModel (m : Contents.IModel) (c : Context) : Context :=
  {| _path := _path c; _contentsModel := m;
     _isDisposed := _isDisposed c; _hasCheckpointed := _hasCheckpointed c;
     model := model c; session := session c; factory := factory c;
     _pathChanged := _pathChanged c; _fileChanged := _fileChanged c;
     _disposed := _disposed c |}.

Definition set_isDisposed (b : bool) (c : Context) : Context :=
  {| _path := _path c; _contentsModel := _contentsModel c;
     _isDisposed := b; _hasCheckpointed := _hasCheckpointed c;
     model := model c; session := session c; factory := factory c;
     _pathChanged := _pathChanged c; _fileChanged := _fileChanged c;
     _disposed := _disposed c |}.

Definition set_hasCheckpointed (b : bool) (c : Context) : Context :=
  {| _path := _path c; _contentsModel := _contentsModel c;
     _isDisposed := _isDisposed c; _hasCheckpointed := b;
     model := model c; session := session c; factory := factory c;
     _pathChanged := _pathChanged c; _fileChanged := _fileChanged c;
     _disposed := _disposed c |}.

Definition set_model (m : DocumentModel) (c : Context) : Context :=
  {| _path := _path c; _contentsModel := _contentsModel c;
     _isDisposed := _isDisposed c; _hasCheckpointed := _hasCheckpointed c;
     model := m; session := session c; factory := factory c;
     _pathChanged := _pathChanged c; _fileChanged := _fileChanged c;
     _disposed := _disposed c |}.

Definition set_session (s : ClientSession) (c : Context) : Context :=
  {| _path := _path c; _contentsModel := _contentsModel c;
     _isDisposed := _isDisposed c; _hasCheckpointed := _hasCheckpointed c;
     model := model c; session := s; factory := factory c;
     _pathChanged := _pathChanged c; _fileChanged := _fileChanged c;
     _disposed := _disposed c |}.

Definition emit_pathChanged (p : string) (c : Context) : Context :=
  {| _path := _path c; _contentsModel := _contentsModel c;
     _isDisposed := _isDisposed c; _hasCheckpointed := _hasCheckpointed c;
     model := model c; session := session c; factory := factory c;
     _pathChanged := p :: _pathChanged c; _fileChanged := _fileChanged c;
     _disposed := _disposed c |}.

Definition emit_fileChanged (m : Contents.IModel) (c : Context) : Context :=
  {| _path := _path c; _contentsModel := _contentsModel c;
     _isDisposed := _isDisposed c; _hasCheckpointed := _hasCheckpointed c;
     model := model c; session := session c; factory := factory c;
     _pathChanged := _pathChanged c; _fileChanged := m :: _fileChanged c;
     _disposed := _disposed c |}.

Definition emit_disposed (c : Context) : Context :=
  {| _path := _path c; _contentsModel := _contentsModel c;
     _isDisposed := _isDisposed c; _hasCheckpointed := _hasCheckpointed c;
     model := model c; session := session c; factory := factory c;
     _pathChanged := _pathChanged c; _fileChanged := _fileChanged c;
     _disposed := S (_disposed c) |}.

(** [get contentsModel()] *)
Definition contentsModel (c : Context) : Contents.IModel := _contentsModel c.

(** [dispose()] *)
Definition dispose (c : Context) : Context :=
  if _isDisposed c then c
  else
    let c := set_isDisposed true c in
    let c := set_session {| session_path := session_path (session c);
                            session_name := session_name (session c);
                            session_isDisposed := true |} c in
    let c := set_model (model_dispose (model c)) c in
    emit_disposed c.

(** [_onSessionChanged(sender, type)] *)
Definition _onSessionChanged (type : string) (c : Context) : Context :=
  if negb (String.eqb type "path") then c
  else
    let path := session_path (session c) in
    if negb (String.eqb path (_path c)) then
      let c := set_path path c in
      let c := set_hasCheckpointed false c in
      emit_pathChanged path c
    else c.

(** Modelled from the spec: [session.setPath(path)] sets the path of the
    session and, when it changed, emits the property-changed signal the
    context listens to with [_onSessionChanged]. *)
Definition session_setPath (path : string) (c : Context) : Context :=
  if session_isDisposed (session c)
     || String.eqb (session_path (session c)) path
  then c
  else
    _onSessionChanged "path"
      (set_session {| session_path := path;
                      session_name := session_name (session c);
                      session_isDisposed := session_isDisposed (session c) |}
         c).

(** Modelled from the spec: [session.setName(name)], likewise. *)
Definition session_setName (name : string) (c : Context) : Context :=
  if session_isDisposed (session c)
     || String.eqb (session_name (session c)) name
  then c
  else
    _onSessionChanged "name"
      (set_session {| session_path := session_path (session c);
                      session_name := name;
                      session_isDisposed := session_isDisposed (session c) |}
         c).

(** [_updateContentsModel(model)] *)
Definition _updateContentsModel (model : Contents.IModel) (c : Context)
  : Context :=
  let newModel := {|
    Contents.path := Contents.path model;
    Contents.name := Contents.name model;
    Contents.type := Contents.type model;
    Contents.content := JUndefined;
    Contents.writable := Contents.writable model;
    Contents.created := Contents.created model;
    Contents.last_modified := Contents.last_modified model;
    Contents.mimetype := Contents.mimetype model;
    Contents.format := Contents.format model
  |} in
  let modified := Contents.last_modified (contentsModel c) in
  let c := set_contentsModel newModel c in
  if negb (truthy modified)
     || negb (strict_eq (Contents.last_modified newModel) modified)
  then emit_fileChanged newModel c
  else c.

(** [Contents.IChangedArgs] *)
Record IChangedArgs : Type := {
  change_type : string;
  oldValue : option Contents.IModel;
  newValue : option Contents.IModel
}.

(** How a promise settles. *)
Inductive Outcome (A : Type) : Type :=
| Fulfilled (a : A)
| Rejected (e : Rejection).
Arguments Fulfilled {A} a.
Arguments Rejected {A} e.

Section ContextOperations.

Variable js : Platform.

(** [_onFileChanged(sender, change)] *)
Definition _onFileChanged (change : IChangedArgs) (c : Context) : Context :=
  if negb (String.eqb (change_type change) "rename") then c
  else
    let oldPath := option_map Contents.path (oldValue change) in
    match newValue change with
    | Some newValue =>
        let newPath := Contents.path newValue in
        if truthy (Some newPath) && strict_eq oldPath (Some (_path c))
        then
          let c := session_setPath newPath c in
          let c := session_setName (localName js newPath) c in
          let c := set_path newPath c in
          let c := _updateContentsModel newValue c in
          let c := set_hasCheckpointed false c in
          emit_pathChanged (_path c) c
        else c
    | None => c
    end.

(** *** Promises over the context

    An asynchronous method of the context is a program that, from the
    fields of the context, yields how its promise settles together
    with the fields as the method left them. *)

Definition Async (A : Type) : Type := Context -> Prog (Outcome A * Context).

Definition resolve {A : Type} (a : A) : Async A :=
  fun c => Ret (Fulfilled a, c).

Definition reject {A : Type} (e : Rejection) : Async A :=
  fun c => Ret (Rejected e, c).

(** [p.then(f)] *)
Definition then_ {A B : Type} (p : Async A) (f : A -> Async B) : Async B :=
  fun c =>
    bindP (p c) (fun '(o, c') =>
      match o with
      | Fulfilled a => f a c'
      | Rejected e => Ret (Rejected e, c')
      end).

(** [p.catch(g)] *)
Definition catch_ {A : Type} (p : Async A) (g : Rejection -> Async A)
  : Async A :=
  fun c =>
    bindP (p c) (fun '(o, c') =>
      match o with
      | Fulfilled a => Ret (Fulfilled a, c')
      | Rejected e => g e c'
      end).

(** [p.then(f, g)]: [g] sees the rejections of [p] only. *)
Definition then2 {A B : Type} (p : Async A)
  (f : A -> Async B) (g : Rejection -> Async B) : Async B :=
  fun c =>
    bindP (p c) (fun '(o, c') =>
      match o with
      | Fulfilled a => f a c'
      | Rejected e => g e c'
      end).

Definition map_ {A B : Type} (f : A -> B) (p : Async A) : Async B :=
  then_ p (fun a => resolve (f a)).

(** Waiting for the environment: the context may be disposed while the
    request is in flight. *)
Definition await {R : Type} (q : Request R) : Async R :=
  fun c =>
    Vis q (fun rp =>
      let c' := if disposed_meanwhile rp then dispose c else c in
      match settled rp with
      | inr v => Ret (Fulfilled v, c')
      | inl e => Ret (Rejected e, c')
      end).

Definition fire (e : Effect) : Async unit :=
  fun c => Fire e (Ret (Fulfilled tt, c)).

(** A synchronous assignment to the fields. *)
Definition assign (f : Context -> Context) : Async unit :=
  fun c => Ret (Fulfilled tt, f c).

Notation "x <- p ;; q" := (then_ p (fun x => q))
  (at level 61, p at next level, right associativity).
Notation "p ;;; q" := (then_ p (fun _ => q))
  (at level 61, right associativity).

(** *** Thin pass-throughs to the contents service *)

(** [createCheckpoint()] *)
Definition createCheckpoint : Async Contents.ICheckpointModel :=
  fun c => await (Contents_createCheckpoint (_path c)) c.

(** [listCheckpoints()] *)
Definition listCheckpoints : Async (list Contents.ICheckpointModel) :=
  fun c => await (Contents_listCheckpoints (_path c)) c.

(** [Private.saveModel(manager, factory, model, path)] *)
Definition saveModel (factory : IModelFactory) (model : DocumentModel)
  (path : string) : Async Contents.IModel :=
  let content :=
    if String.eqb (fileFormat factory) "json"
    then toJSON model
    else JString (toString model) in
  let options := {|
    Contents.save_type := contentType factory;
    Contents.save_format := fileFormat factory;
    Contents.save_content := content
  |} in
  await (Contents_save path options).

(** [Private.loadModel(manager, factory, model, path)]; [model] is the
    model of the context. *)
Definition loadModel (factory : IModelFactory) (path : string)
  : Async Contents.IModel :=
  let opts := {|
    Contents.fetch_format := Some (fileFormat factory);
    Contents.fetch_type := Some (contentType factory);
    Contents.fetch_content := true
  |} in
  contents <- await (Contents_get path opts) ;;
  fun c =>
    match updateModel (model c) contents with
    | inr m => Ret (Fulfilled contents, set_model m c)
    | inl e => Ret (Rejected e, c)
    end.

(** *** Error reports *)

Definition okButton : string := "OK".
Definition cancelButton : string := "CANCEL".

(** [_handleError(err, title)]: the dialog is opened and not waited
    for. *)
Definition _handleError (err : Rejection) (title : string) : Async unit :=
  let buttons := [okButton] in
  match err with
  | ResponseError _ text message =>
      let body :=
        match JSON_message js text with
        | Some m => m
        | None => text
        end in
      let body := if String.eqb body "" then message else body in
      fire (Dialog_opened title (Some body) buttons)
  | _ =>
      let body := message_of err in
      fire (Dialog_opened title body buttons)
  end.

(** *** Save and revert *)

(** [_maybeCheckpoint()] *)
Definition _maybeCheckpoint : Async unit :=
  fun c =>
    let writable := Contents.writable (contentsModel c) in
    if negb writable || _hasCheckpointed c then resolve tt c
    else
      catch_
        (checkpoints <- listCheckpoints ;;
         fun c =>
           let writable := Contents.writable (contentsModel c) in
           if negb (_isDisposed c)
              && (length checkpoints =? 0)%nat
              && writable
           then (createCheckpoint ;;;
                 assign (set_hasCheckpointed true)) c
           else resolve tt c)
        (fun err =>
           (* Handle a read-only folder. *)
           if negb (response_status_is 403 err) then reject err
           else resolve tt)
        c.

(** [_save()] *)
Definition _save : Async Contents.IModel :=
  _maybeCheckpoint ;;;
  fun c => saveModel (factory c) (model c) (_path c) c.

(** [revert()] *)
Definition revert : Async unit :=
  fun c =>
    let factory := factory c in
    let path := _path c in
    catch_
      (contents <- loadModel factory path ;;
       fun c =>
         if _isDisposed c then resolve tt c
         else assign (_updateContentsModel contents) c)
      (fun err => _handleError err "File Load Error")
      c.

(** [new Date(modified).getTime()] *)
Definition getTime (modified : option string) : option Z :=
  match modified with
  | Some s => Date_getTime js s
  | None => None
  end.

(** [(tDisk.getTime() - tClient.getTime()) > 500]; a comparison with
    [NaN] is false. *)
Definition later_than_tolerance (tDisk tClient : option Z) : bool :=
  match tDisk, tClient with
  | Some d, Some k => d - k >? 500
  | _, _ => false
  end.

(** [_timeConflict(tClient, model)]: settles with [undefined] when the
    answer is neither OVERWRITE nor REVERT. *)
Definition _timeConflict (model : Contents.IModel)
  : Async (option Contents.IModel) :=
  fire Console_warn ;;;
  label <- await (ShowDialog "File Changed"
                    [cancelButton; "REVERT"; "OVERWRITE"]) ;;
  fun c =>
    if _isDisposed c then reject (Reason "Disposed") c
    else if String.eqb label "OVERWRITE" then map_ Some _save c
    else if String.eqb label "REVERT" then
      (revert ;;; resolve (Some model)) c
    else resolve None c.

Definition metadata_only : Contents.IFetchOptions :=
  {| Contents.fetch_type := None;
     Contents.fetch_format := None;
     Contents.fetch_content := false |}.

(** [_maybeSave()] *)
Definition _maybeSave : Async (option Contents.IModel) :=
  fun c =>
    (* Make sure the file has not changed on disk. *)
    let promise := await (Contents_get (_path c) metadata_only) in
    then2 promise
      (fun model c =>
         if _isDisposed c then reject (Reason "Disposed") c
         else
           let modified := Contents.last_modified (contentsModel c) in
           let tClient := getTime modified in
           let tDisk := getTime (Contents.last_modified model) in
           if truthy modified && later_than_tolerance tDisk tClient
           then _timeConflict model c
           else map_ Some _save c)
      (fun err =>
         if response_status_is 404 err then map_ Some _save
         else reject err)
      c.

(** [save()].  When [value] is [undefined], [_updateContentsModel]
    throws a [TypeError] on reading [model.path], after [dirty] has
    been assigned. *)
Definition save : Async unit :=
  catch_
    (then_
       (fun c =>
          if negb (isCollaborative (model c)) then _maybeSave c
          else map_ Some _save c)
       (fun value c =>
        if _isDisposed c then resolve tt c
        else
          let c := set_model (set_dirty false (model c)) c in
          match value with
          | Some v => assign (_updateContentsModel v) c
          | None =>
              reject (JsError "Cannot read property 'path' of undefined") c
          end))
    (fun err => _handleError err "File Save Error").

End ContextOperations.

(** ** The autosave handler *)

Module SaveHandler.

(** The fields of [SaveHandler].  [_autosaveTimer] is the delay of the
    pending timeout, if one is pending.  Times are in milliseconds. *)
Record State : Type := {
  _autosaveTimer : option Z;
  _minInterval : Z;
  _interval : Z;
  _isActive : bool;
  _inDialog : bool;
  _isDisposed : bool
}.

(** [private _multiplier = 10], never assigned again. *)
Definition _multiplier : Z := 10.

Definition set_timer (t : option Z) (h : State) : State :=
  {| _autosaveTimer := t; _minInterval := _minInterval h;
     _interval := _interval h; _isActive := _isActive h;
     _inDialog := _inDialog h; _isDisposed := _isDisposed h |}.

Definition set_interval (i : Z) (h : State) : State :=
  {| _autosaveTimer := _autosaveTimer h; _minInterval := _minInterval h;
     _interval := i; _isActive := _isActive h;
     _inDialog := _inDialog h; _isDisposed := _isDisposed h |}.

Definition set_isActive (b : bool) (h : State) : State :=
  {| _autosaveTimer := _autosaveTimer h; _minInterval := _minInterval h;
     _interval := _interval h; _isActive := b;
     _inDialog := _inDialog h; _isDisposed := _isDisposed h |}.

(** [constructor(options)]; [saveInterval] is in seconds. *)
Definition constructor (saveInterval : option Z) : State :=
  let interval :=
    match saveInterval with
    | Some v => if v =? 0 then 120 else v
    | None => 120
    end in
  {| _autosaveTimer := None;
     _minInterval := interval * 1000;
     _interval := interval * 1000;
     _isActive := false;
     _inDialog := false;
     _isDisposed := false |}.

(** [dispose()] *)
Definition dispose (h : State) : State :=
  if _isDisposed h then h
  else
    {| _autosaveTimer := None; _minInterval := _minInterval h;
       _interval := _interval h; _isActive := _isActive h;
       _inDialog := _inDialog h; _isDisposed := true |}.

(** [_setTimer()] *)
Definition _setTimer (h : State) : State :=
  let h := set_timer None h in
  if negb (_isActive h) then h
  else set_timer (Some (_interval h)) h.

(** [start()] *)
Definition start (h : State) : State := _setTimer (set_isActive true h).

(** [stop()] *)
Definition stop (h : State) : State := set_timer None (set_isActive false h).

(** [set saveInterval(value)]; [value] is in seconds. *)
Definition set_saveInterval (value : Z) (h : State) : State :=
  let h :=
    {| _autosaveTimer := _autosaveTimer h; _minInterval := value * 1000;
       _interval := value * 1000; _isActive := _isActive h;
       _inDialog := _inDialog h; _isDisposed := _isDisposed h |} in
  if _isActive h then _setTimer h else h.

(** The connections made in the constructor: [fileChanged] of the
    context restarts the timer, [disposed] disposes the handler.
    [before] and [after] are the context around a call. *)
Definition deliver (before after : Context) (h : State) : State :=
  let h :=
    if (length (_fileChanged before) <? length (_fileChanged after))%nat
    then _setTimer h else h in
  if (_disposed before <? _disposed after)%nat then dispose h else h.

Section Autosave.

Variable js : Platform.

(** [_save()], the timeout callback; [start] and [finish] are the
    two readings of the clock.  The handler always holds a context, so
    the test [!context] never returns early. *)
Definition _save (start finish : Z) (h : State) (context : Context)
  : Prog (State * Context) :=
  (* Trigger the next update. *)
  let h := _setTimer h in
  if negb (dirty (model context)) || readOnly (model context)
     || _inDialog h
  then Ret (h, context)
  else
    bindP (save js context) (fun '(o, context') =>
      let h := deliver context context' h in
      match o with
      | Fulfilled _ =>
          if _isDisposed h then Ret (h, context')
          else
            let duration := finish - start in
            (* New save interval: higher of 10x save duration or
               min interval. *)
            let h :=
              set_interval
                (Z.max (_multiplier * duration) (_minInterval h)) h in
            Ret (_setTimer h, context')
      | Rejected _ => Ret (h, context')
      end).

End Autosave.

End SaveHandler.

(** ** The document manager *)

Module DocumentManager.

Record WidgetFactory : Type := {
  name : string;
  modelName : option string
}.

(** The lookups of the document registry the manager uses. *)
Record DocumentRegistry : Type := {
  defaultWidgetFactory : string -> option WidgetFactory;
  getWidgetFactory : string -> option WidgetFactory;
  getModelFactory : string -> option IModelFactory
}.

(** The service manager given in the options of the constructor. *)
Inductive ServiceManager : Type := service_manager.

(** The manager imports the class [Context] of its contexts from the
    docregistry package and calls [fromStore] on them; that class is not
    among the sources (the context class of context.ts is private to its
    file and has no [fromStore]).  Its constructor is a parameter: from
    the [manager], [path] and [factory] options it tells whether
    [new Context(options)] throws, and what. *)
Definition ContextClass : Type :=
  option ServiceManager -> string -> IModelFactory -> option Rejection.

(** What the manager reads of a context.  [path] is what the getter
    [context.path] yields at present: a rename, a session change or
    saveAs changes it.  [uid] stands for the identity of the object. *)
Record IContext : Type := {
  uid : nat;
  path : string;
  factoryName : string
}.

Record Widget : Type := {
  widget_factory : string;
  widget_context : nat
}.

(** The calls on a context the manager starts and does not wait for. *)
Inductive Started : Type :=
| fromStore (context : nat)
| save (context : nat).

Record State : Type := {
  registry : DocumentRegistry;
  _services : ServiceManager;
  _contexts : list IContext;
  created : nat;
  opened : list Widget;
  started : list Started
}.

(** [constructor(options)] *)
Definition constructor (registry : DocumentRegistry)
  (services : ServiceManager) : State :=
  {| registry := registry; _services := services; _contexts := [];
     created := 0; opened := []; started := [] |}.

(** [this.services], as [_createContext] reads it: the class declares
    and assigns the member [_services] only, so that this read yields
    [undefined]. *)
Definition services (m : State) : option ServiceManager := None.

Definition key (c : IContext) : string * string := (path c, factoryName c).

(** [_findContext(path, factoryName)] *)
Definition _findContext (path' factoryName' : string) (m : State)
  : option IContext :=
  find (fun context =>
          String.eqb (factoryName context) factoryName'
          && String.eqb (path context) path')
       (_contexts m).

(** [ArrayExt.removeFirstOf(array, value)] *)
Fixpoint removeFirstOf (l : list IContext) (context : nat) : list IContext :=
  match l with
  | [] => []
  | c :: rest =>
      if Nat.eqb (uid c) context then rest
      else c :: removeFirstOf rest context
  end.

(** [_onContextDisposed(context)] *)
Definition _onContextDisposed (context : nat) (m : State) : State :=
  {| registry := registry m; _services := _services m;
     _contexts := removeFirstOf (_contexts m) context;
     created := created m;
     opened := opened m;
     started := started m |}.

(** The context [context] of the table changes its path: the getter
    yields [path'] from then on. *)
Definition path_changed (context : nat) (path' : string) (m : State) : State :=
  {| registry := registry m; _services := _services m;
     _contexts :=
       map (fun c =>
              if Nat.eqb (uid c) context
              then {| uid := uid c; path := path';
                      factoryName := factoryName c |}
              else c)
           (_contexts m);
     created := created m;
     opened := opened m;
     started := started m |}.

(** [_widgetFactoryFor(path, widgetName)] *)
Definition _widgetFactoryFor (path' widgetName : string) (m : State)
  : option WidgetFactory :=
  if String.eqb widgetName "default" then
    match defaultWidgetFactory (registry m) path' with
    | None => None
    | Some factory => getWidgetFactory (registry m) (name factory)
    end
  else getWidgetFactory (registry m) widgetName.

Definition start (s : Started) (m : State) : State :=
  {| registry := registry m; _services := _services m;
     _contexts := _contexts m;
     created := created m; opened := opened m;
     started := started m ++ [s] |}.

Definition open_widget (w : Widget) (m : State) : State :=
  {| registry := registry m; _services := _services m;
     _contexts := _contexts m;
     created := created m; opened := opened m ++ [w];
     started := started m |}.

Inductive Which : Type := which_open | which_create.

(** The calls that reach the table of contexts. *)
Inductive Call : Type :=
| call_open (path' widgetName : string)
| call_createNew (path' widgetName : string)
| context_disposed (context : nat)
| context_path_changed (context : nat) (path' : string).

Section Creation.

Variable Context_class : ContextClass.

(** [_createContext(path, factory, kernelPreference)]: the context is
    constructed with [manager: this.services]; when the constructor
    throws nothing has been assigned, otherwise the save handler is
    attached and the context pushed. *)
Definition _createContext (path' : string) (factory : IModelFactory)
  (m : State) : Rejection + IContext * State :=
  match Context_class (services m) path' factory with
  | Some error => inl error
  | None =>
      let context := {| uid := created m; path := path';
                        factoryName := factory_name factory |} in
      inr (context,
           {| registry := registry m; _services := _services m;
              _contexts := _contexts m ++ [context];
              created := S (created m);
              opened := opened m;
              started := started m |})
  end.

(** The end of [_createOrOpenDocument]: the widget is created on the
    context and opened. *)
Definition show (widgetFactory : WidgetFactory) (context : IContext)
  (m : State) : (Rejection + option Widget) * State :=
  let widget := {| widget_factory := name widgetFactory;
                   widget_context := uid context |} in
  (inr (Some widget), open_widget widget m).

(** [_createOrOpenDocument(which, path, widgetName, kernel, options)];
    the kernel preference and the open options are passed on to the
    context and to the opener and do not reach the table of contexts.
    The result is what is thrown, or what is returned. *)
Definition _createOrOpenDocument (which : Which) (path' widgetName : string)
  (m : State) : (Rejection + option Widget) * State :=
  match _widgetFactoryFor path' widgetName m with
  | None => (inr None, m)
  | Some widgetFactory =>
      (* widgetFactory.modelName || 'text' *)
      let modelName' :=
        match modelName widgetFactory with
        | Some n => if String.eqb n "" then "text" else n
        | None => "text"
        end in
      match getModelFactory (registry m) modelName' with
      | None => (inr None, m)
      | Some factory =>
          match which with
          | which_open =>
              (* Use an existing context if available. *)
              match _findContext path' (factory_name factory) m with
              | Some context => show widgetFactory context m
              | None =>
                  match _createContext path' factory m with
                  | inl error => (inl error, m)
                  | inr (context, m) =>
                      show widgetFactory context
                        (start (fromStore (uid context)) m)
                  end
              end
          | which_create =>
              match _createContext path' factory m with
              | inl error => (inl error, m)
              | inr (context, m) =>
                  (* Immediately save the contents to disk. *)
                  show widgetFactory context (start (save (uid context)) m)
              end
          end
      end
  end.

(** [createNew(path, widgetName, kernel)] *)
Definition createNew (path' widgetName : string) (m : State)
  : (Rejection + option Widget) * State :=
  _createOrOpenDocument which_create path' widgetName m.

(** [open(path, widgetName, kernel, options)] *)
Definition open (path' widgetName : string) (m : State)
  : (Rejection + option Widget) * State :=
  _createOrOpenDocument which_open path' widgetName m.

Definition step (m : State) (c : Call) : State :=
  match c with
  | call_open p w => snd (open p w m)
  | call_createNew p w => snd (createNew p w m)
  | context_disposed u => _onContextDisposed u m
  | context_path_changed u p => path_changed u p m
  end.

Definition after (registry : DocumentRegistry) (services : ServiceManager)
  (calls : list Call) : State :=
  fold_left step calls (constructor registry services).

End Creation.

(** At most one context per (path, model factory name). *)
Definition unique_contexts (m : State) : Prop :=
  NoDup (map key (_contexts m)).

(** A constructor that dereferences its manager, as the constructor of
    the context class in context.ts does
    ([manager.contents.localPath(this.path)]): it throws a [TypeError]
    when [manager] is undefined. *)
Definition reads_manager : ContextClass :=
  fun manager _ _ =>
    match manager with
    | Some _ => None
    | None => Some (JsError "Cannot read property 'contents' of undefined")
    end.

End DocumentManager.

(** ** Restoring checkpoints

    [restoreCheckpoint] asks the contents service to restore a
    checkpoint, a request that save and revert never make.  Programs
    that may make it are programs over the requests above and this
    one. *)

Inductive CheckpointRequest : Type -> Type :=
| Core {R : Type} (q : Request R) : CheckpointRequest R
| Contents_restoreCheckpoint (path checkpointID : string)
    : CheckpointRequest unit.

Inductive CheckpointProg (A : Type) : Type :=
| Done (a : A)
| Fire' (e : Effect) (k : CheckpointProg A)
| Ask {R : Type} (q : CheckpointRequest R) (k : Reply R -> CheckpointProg A).
Arguments Done {A} a.
Arguments Fire' {A} e k.
Arguments Ask {A R} q k.

(** A program of the context, as a program that may also restore
    checkpoints. *)
Fixpoint lift {A : Type} (p : Prog A) : CheckpointProg A :=
  match p with
  | Ret a => Done a
  | Fire e k => Fire' e (lift k)
  | Vis q k => Ask (Core q) (fun rp => lift (k rp))
  end.

Fixpoint bindC {A B : Type} (p : CheckpointProg A) (f : A -> CheckpointProg B)
  : CheckpointProg B :=
  match p with
  | Done a => f a
  | Fire' e k => Fire' e (bindC k f)
  | Ask q k => Ask q (fun rp => bindC (k rp) f)
  end.

Inductive CheckpointEvent : Type :=
| Asked {R : Type} (q : CheckpointRequest R) (rp : Reply R)
| Fired' (e : Effect).

Definition CheckpointHandler (W : Type) : Type :=
  forall R : Type, CheckpointRequest R -> W -> Reply R * W.

Fixpoint runC {W A : Type} (h : CheckpointHandler W) (p : CheckpointProg A)
  (w : W) : A * W * list CheckpointEvent :=
  match p with
  | Done a => (a, w, [])
  | Fire' e k =>
      let '(a, w', tr) := runC h k w in (a, w', Fired' e :: tr)
  | Ask q k =>
      let '(rp, w1) := h _ q w in
      let '(a, w', tr) := runC h (k rp) w1 in
      (a, w', Asked q rp :: tr)
  end.

(** [restoreCheckpoint(checkpointId?)] *)
Definition restoreCheckpoint (checkpointId : option string) (c : Context)
  : CheckpointProg (Outcome unit * Context) :=
  let path := _path c in
  let restore (checkpointId : string) (c : Context) :=
    Ask (Contents_restoreCheckpoint path checkpointId) (fun rp =>
      let c' := if disposed_meanwhile rp then dispose c else c in
      match settled rp with
      | inr v => Done (Fulfilled v, c')
      | inl e => Done (Rejected e, c')
      end) in
  let latest :=
    bindC (lift (listCheckpoints c)) (fun '(o, c') =>
      match o with
      | Fulfilled checkpoints =>
          if _isDisposed c' || (length checkpoints =? 0)%nat
          then Done (Fulfilled tt, c')
          else
            (* checkpoints[checkpoints.length - 1].id *)
            match nth_error checkpoints (length checkpoints - 1) with
            | Some cp => restore (Contents.id cp) c'
            | None =>
                Done (Rejected
                        (JsError "Cannot read property 'id' of undefined"),
                      c')
            end
      | Rejected e => Done (Rejected e, c')
      end) in
  match checkpointId with
  | Some id => if truthy (Some id) then restore id c else latest
  | None => latest
  end.

(** ** A concrete environment

    A platform and a small contents server with one file, used to run
    the operations on concrete inputs. *)

Module Scenario.

Definition t0 : string := "2018-01-01T00:00:00.000Z".
Definition t0_400 : string := "2018-01-01T00:00:00.400Z".
Definition t0_600 : string := "2018-01-01T00:00:00.600Z".
Definition t0_10s : string := "2018-01-01T00:00:10.000Z".

(** The instants of the four time stamps above, in milliseconds since
    the epoch; any other string is not a date here. *)
Definition getTime (s : string) : option Z :=
  if String.eqb s t0 then Some 1514764800000
  else if String.eqb s t0_400 then Some 1514764800400
  else if String.eqb s t0_600 then Some 1514764800600
  else if String.eqb s t0_10s then Some 1514764810000
  else None.

Fixpoint last_segment (current s : string) : string :=
  match s with
  | EmptyString => current
  | String c rest =>
      if Ascii.eqb c "/"%char then last_segment EmptyString rest
      else last_segment (current ++ String c EmptyString) rest
  end.

Definition js : Platform :=
  {| Date_getTime := getTime;
     JSON_message := fun _ => None;
     localName := last_segment EmptyString |}.

Definition file (path modified : string) (content : JSONValue)
  : Contents.IModel :=
  {| Contents.name := last_segment EmptyString path;
     Contents.path := path;
     Contents.type := "file";
     Contents.writable := true;
     Contents.created := t0;
     Contents.last_modified := Some modified;
     Contents.mimetype := "text/plain";
     Contents.content := content;
     Contents.format := Some "text" |}.

Definition without_content (m : Contents.IModel) : Contents.IModel :=
  {| Contents.name := Contents.name m;
     Contents.path := Contents.path m;
     Contents.type := Contents.type m;
     Contents.writable := Contents.writable m;
     Contents.created := Contents.created m;
     Contents.last_modified := Contents.last_modified m;
     Contents.mimetype := Contents.mimetype m;
     Contents.content := JUndefined;
     Contents.format := Contents.format m |}.

(** The server: the file it stores, if any, its checkpoints, the
    status with which it refuses to list checkpoints or to serve the
    file, the time stamp it gives to the next write, and the answers
    the user will give to dialogs. *)
Record Server : Type := {
  stored : option Contents.IModel;
  checkpoints : list Contents.ICheckpointModel;
  listing_refused : option Z;
  get_refused : option Z;
  next_stamp : string;
  answers : list string
}.

Definition ok {R : Type} (v : R) : Reply R :=
  {| disposed_meanwhile := false; settled := inr v |}.

Definition refused {R : Type} (status : Z) : Reply R :=
  {| disposed_meanwhile := false;
     settled := inl (ResponseError status "" "refused") |}.

Definition server : Handler Server :=
  fun R q =>
    match q in Request R return Server -> Reply R * Server with
    | Contents_get path opts => fun s =>
        match get_refused s, stored s with
        | Some status, _ => (refused status, s)
        | None, Some f =>
            if String.eqb (Contents.path f) path
            then (ok (if Contents.fetch_content opts then f
                      else without_content f), s)
            else (refused 404, s)
        | None, None => (refused 404, s)
        end
    | Contents_save path opts => fun s =>
        let f := file path (next_stamp s) (Contents.save_content opts) in
        (ok (without_content f),
         {| stored := Some f; checkpoints := checkpoints s;
            listing_refused := listing_refused s;
            get_refused := get_refused s;
            next_stamp := next_stamp s; answers := answers s |})
    | Contents_listCheckpoints path => fun s =>
        match listing_refused s with
        | Some status => (refused status, s)
        | None => (ok (checkpoints s), s)
        end
    | Contents_createCheckpoint path => fun s =>
        let cp := {| Contents.id := "checkpoint";
                     Contents.checkpoint_last_modified := next_stamp s |} in
        (ok cp,
         {| stored := stored s; checkpoints := checkpoints s ++ [cp];
            listing_refused := listing_refused s;
            get_refused := get_refused s;
            next_stamp := next_stamp s; answers := answers s |})
    | ShowDialog title buttons => fun s =>
        (ok (hd cancelButton (answers s)),
         {| stored := stored s; checkpoints := checkpoints s;
            listing_refused := listing_refused s;
            get_refused := get_refused s;
            next_stamp := next_stamp s; answers := tl (answers s) |})
    end.

Definition textFactory : IModelFactory :=
  {| factory_name := "text"; fileFormat := "text";
     contentType := "file" |}.

(** A context as [createContext] builds it for a file whose metadata
    is [m], holding [text]. *)
Definition context_for (m : Contents.IModel) (text : string) (dirty : bool)
  : Context :=
  {| _path := Contents.path m;
     _contentsModel := m;
     _isDisposed := false;
     _hasCheckpointed := false;
     model := {| value := JString text; dirty := dirty; readOnly := false;
                 isCollaborative := false; model_isDisposed := false |};
     session := {| session_path := Contents.path m;
                   session_name := Contents.name m;
                   session_isDisposed := false |};
     factory := textFactory;
     _pathChanged := [];
     _fileChanged := [];
     _disposed := 0 |}.

Definition notes : Contents.IModel :=
  without_content (file "notes.txt" t0 JUndefined).

Definition editing : Context := context_for notes "local edits" true.

(** A server on which the file was changed at [modified]. *)
Definition changed_at (modified : string) (answers : list string) : Server :=
  {| stored := Some (file "notes.txt" modified (JString "remote text"));
     checkpoints := [];
     listing_refused := None;
     get_refused := None;
     next_stamp := t0_10s;
     answers := answers |}.

End Scenario.

(** * Definitions used by the statements *)

(** [wp p Q] holds when, whatever the environment replies, the result
    of [p] and the events of its run satisfy [Q]. *)
Fixpoint wp {A : Type} (p : Prog A) (Q : A -> list Event -> Prop) : Prop :=
  match p with
  | Ret a => Q a []
  | Fire e k => wp k (fun a tr => Q a (Fired e :: tr))
  | Vis q k => forall rp, wp (k rp) (fun a tr => Q a (Called q rp :: tr))
  end.

(** The copy [_updateContentsModel] keeps: every field but the content. *)
Definition content_free (m : Contents.IModel) : Contents.IModel :=
  {| Contents.name := Contents.name m;
     Contents.path := Contents.path m;
     Contents.type := Contents.type m;
     Contents.writable := Contents.writable m;
     Contents.created := Contents.created m;
     Contents.last_modified := Contents.last_modified m;
     Contents.mimetype := Contents.mimetype m;
     Contents.content := JUndefined;
     Contents.format := Contents.format m |}.

(** A time stamp is absent when it is [undefined] or the empty string,
    the two values [!mod] accepts. *)
Definition absent (v : option string) : Prop := v = None \/ v = Some "".

(** A context whose session was renamed to ["renamed.txt"] while the
    context still holds ["notes.txt"]. *)
Definition session_renamed : Context :=
  set_session {| session_path := "renamed.txt";
                 session_name := "renamed.txt";
                 session_isDisposed := false |}
    Scenario.editing.

(** The conversion in the words of the specification: every CR LF pair
    and every CR not followed by LF becomes one LF, every other
    character stays. *)
Inductive line_endings_converted : string -> string -> Prop :=
| converted_empty :
    line_endings_converted EmptyString EmptyString
| converted_CRLF (s t : string) :
    line_endings_converted s t ->
    line_endings_converted (String CR (String LF s)) (String LF t)
| converted_lone_CR (s t : string) :
    (forall s', s <> String LF s') ->
    line_endings_converted s t ->
    line_endings_converted (String CR s) (String LF t)
| converted_other (c : ascii) (s t : string) :
    c <> CR ->
    line_endings_converted s t ->
    line_endings_converted (String c s) (String c t).

(** The fetch of the full content that [loadModel] makes for a
    context. *)
Definition fetch_full (c : Context) : Request Contents.IModel :=
  Contents_get (_path c)
    {| Contents.fetch_type := Some (contentType (factory c));
       Contents.fetch_format := Some (fileFormat (factory c));
       Contents.fetch_content := true |}.

Definition CRLF_text : string :=
  String "a" (String CR (String LF (String "b" EmptyString))).

Definition LF_text : string :=
  String "a" (String LF (String "b" EmptyString)).

(** A server storing ["a\r\nb"] and a clean context for that file. *)
Definition CRLF_server : Scenario.Server :=
  {| Scenario.stored :=
       Some (Scenario.file "notes.txt" Scenario.t0 (JString CRLF_text));
     Scenario.checkpoints := [];
     Scenario.listing_refused := None;
     Scenario.get_refused := None;
     Scenario.next_stamp := Scenario.t0_10s;
     Scenario.answers := [] |}.

Definition CRLF_context : Context :=
  Scenario.context_for Scenario.notes "" false.

(** A started handler with the default interval, and the run of its
    timeout callback on the dirty context of the scenario when the save
    takes [duration] milliseconds. *)
Definition default_handler : SaveHandler.State :=
  SaveHandler.start (SaveHandler.constructor None).

Definition autosave_taking (duration : Z) : SaveHandler.State * Context :=
  result_of
    (run Scenario.server
       (SaveHandler._save Scenario.js 0 duration default_handler
          Scenario.editing)
       (Scenario.changed_at Scenario.t0 [])).

(** A registry with one widget factory, the default for every path, on
    the text model factory. *)
Definition editor_registry : DocumentManager.DocumentRegistry :=
  let editor := {| DocumentManager.name := "Editor";
                   DocumentManager.modelName := Some "text" |} in
  {| DocumentManager.defaultWidgetFactory := fun _ => Some editor;
     DocumentManager.getWidgetFactory :=
       fun n => if String.eqb n "Editor" then Some editor else None;
     DocumentManager.getModelFactory :=
       fun n => if String.eqb n "text" then Some Scenario.textFactory
                else None |}.

(** The context when the reply [rp] arrives, as [await] passes it on:
    disposed if it was disposed while the request was in flight. *)
Definition meanwhile {R : Type} (rp : Reply R) (c : Context) : Context :=
  if disposed_meanwhile rp then dispose c else c.

(** The steps of [p], run from the context [c], are related by [I] to
    [c] and to the context they end in. *)
Definition holds_from (I : Context -> Context -> list Event -> Prop)
  {A : Type} (c : Context) (p : Prog (Outcome A * Context)) : Prop :=
  wp p (fun x tr => I c (snd x) tr).

(** The last steps of [save()], after the promise [p] of the write. *)
Definition settle_save (js : Platform) (p : Async (option Contents.IModel))
  : Async unit :=
  catch_
    (then_ p
       (fun value c =>
          if _isDisposed c then resolve tt c
          else
            let c := set_model (set_dirty false (model c)) c in
            match value with
            | Some v => assign (_updateContentsModel v) c
            | None =>
                reject (JsError "Cannot read property 'path' of undefined") c
            end))
    (fun err => _handleError js err "File Save Error").

(** [n] calls of [save()], each made when the previous one has
    settled. *)
Fixpoint saves (js : Platform) (n : nat) : Async unit :=
  match n with
  | O => resolve tt
  | S n' => then_ (save js) (fun _ => saves js n')
  end.

(** Every checkpoint created during a step turns [_hasCheckpointed] from
    false to true, and nothing else changes the flag. *)
Definition checkpoint_account (c c' : Context) (tr : list Event) : Prop :=
  (count is_checkpoint_created tr + Nat.b2n (_hasCheckpointed c)
   = Nat.b2n (_hasCheckpointed c'))%nat.

Definition listing (c : Context) : Request (list Contents.ICheckpointModel) :=
  Contents_listCheckpoints (_path c).

Definition prepend {W A : Type} (ev : Event) (x : A * W * list Event)
  : A * W * list Event :=
  let '(a, w, tr) := x in (a, w, ev :: tr).

(** A server that already holds a checkpoint of the file, unchanged
    since the context cached its metadata, and one that refuses to list
    checkpoints. *)
Definition with_checkpoint : Scenario.Server :=
  {| Scenario.stored :=
       Some (Scenario.file "notes.txt" Scenario.t0 (JString "remote text"));
     Scenario.checkpoints :=
       [ {| Contents.id := "earlier";
            Contents.checkpoint_last_modified := Scenario.t0 |} ];
     Scenario.listing_refused := None;
     Scenario.get_refused := None;
     Scenario.next_stamp := Scenario.t0_10s;
     Scenario.answers := [] |}.

Definition listing_forbidden : Scenario.Server :=
  {| Scenario.stored :=
       Some (Scenario.file "notes.txt" Scenario.t0 (JString "remote text"));
     Scenario.checkpoints := [];
     Scenario.listing_refused := Some 403;
     Scenario.get_refused := None;
     Scenario.next_stamp := Scenario.t0_10s;
     Scenario.answers := [] |}.

Definition three_saves (s : Scenario.Server) : list Event :=
  trace_of (run Scenario.server (saves Scenario.js 3 Scenario.editing) s).

Definition request_path (ev : Event) : option string :=
  match ev with
  | Called (Contents_get p _) _ => Some p
  | Called (Contents_save p _) _ => Some p
  | Called (Contents_listCheckpoints p) _ => Some p
  | Called (Contents_createCheckpoint p) _ => Some p
  | _ => None
  end.



(** The notification that ["notes.txt"] became ["renamed.txt"], and a
    server holding the file under its new name. *)
Definition renamed : Contents.IModel :=
  Scenario.without_content
    (Scenario.file "renamed.txt" Scenario.t0 JUndefined).

Definition renamed_server : Scenario.Server :=
  {| Scenario.stored :=
       Some (Scenario.file "renamed.txt" Scenario.t0 (JString "remote text"));
     Scenario.checkpoints := [];
     Scenario.listing_refused := None;
     Scenario.get_refused := None;
     Scenario.next_stamp := Scenario.t0_10s;
     Scenario.answers := [] |}.

Definition after_rename : Context :=
  _onFileChanged Scenario.js
    {| change_type := "rename";
       oldValue := Some Scenario.notes; newValue := Some renamed |}
    Scenario.editing.

Definition metadata_fetch (c : Context) : Request Contents.IModel :=
  Contents_get (_path c) metadata_only.

(** What [_maybeSave] does once the fetch of the metadata has settled:
    its two callbacks. *)
Definition after_fetch (js : Platform) (rp : Reply Contents.IModel)
  : Async (option Contents.IModel) :=
  match settled rp with
  | inr model =>
      fun c =>
        if _isDisposed c then reject (Reason "Disposed") c
        else
          let modified := Contents.last_modified (contentsModel c) in
          let tClient := getTime js modified in
          let tDisk := getTime js (Contents.last_modified model) in
          if truthy modified && later_than_tolerance tDisk tClient
          then _timeConflict js model c
          else map_ Some _save c
  | inl err =>
      if response_status_is 404 err then map_ Some _save
      else reject err
  end.

Definition conflict_declared (tr : list Event) : bool :=
  existsb is_conflict_dialog tr.

Definition no_conflict (c c' : Context) (tr : list Event) : Prop :=
  conflict_declared tr = false.

(** A server on which the file is gone, and one that fails. *)
Definition file_gone : Scenario.Server :=
  {| Scenario.stored := None;
     Scenario.checkpoints := [];
     Scenario.listing_refused := None;
     Scenario.get_refused := None;
     Scenario.next_stamp := Scenario.t0_10s;
     Scenario.answers := [] |}.

Definition failing : Scenario.Server :=
  {| Scenario.stored := None;
     Scenario.checkpoints := [];
     Scenario.listing_refused := None;
     Scenario.get_refused := Some 500;
     Scenario.next_stamp := Scenario.t0_10s;
     Scenario.answers := [] |}.

Definition cancelled : Outcome unit * Context * Scenario.Server * list Event :=
  run Scenario.server (save Scenario.js Scenario.editing)
    (Scenario.changed_at Scenario.t0_600 [cancelButton]).

(** The path named by a change, [change.x && change.x.path]. *)
Definition path_of (v : option Contents.IModel) : option string :=
  option_map Contents.path v.

(** A notification that another file was renamed. *)
Definition other_rename : IChangedArgs :=
  {| change_type := "rename";
     oldValue := Some (Scenario.without_content
                         (Scenario.file "other.txt" Scenario.t0 JUndefined));
     newValue := Some renamed |}.

Definition json_with_CR : Contents.IModel :=
  {| Contents.name := "nb.ipynb"; Contents.path := "nb.ipynb";
     Contents.type := "notebook"; Contents.writable := true;
     Contents.created := Scenario.t0;
     Contents.last_modified := Some Scenario.t0;
     Contents.mimetype := ""; Contents.content := JString CRLF_text;
     Contents.format := Some "json" |}.

Definition is_fetch_or_dialog (ev : Event) : bool :=
  match ev with
  | Called (Contents_get _ _) _ => true
  | Called (ShowDialog _ _) _ => true
  | _ => false
  end.

Definition no_fetch_or_dialog (c c' : Context) (tr : list Event) : Prop :=
  existsb is_fetch_or_dialog tr = false.

(** A collaborative variant of the context of the scenario. *)
Definition collaborating : Context :=
  set_model {| value := JString "shared text"; dirty := true;
               readOnly := false; isCollaborative := true;
               model_isDisposed := false |}
    Scenario.editing.

Definition writes_at_most (n : nat) {A : Type} (p : Prog A) : Prop :=
  wp p (fun _ tr => (count is_write tr <= n)%nat).

Definition no_write (c c' : Context) (tr : list Event) : Prop :=
  count is_write tr = 0%nat.

(** The file of the scenario, read-only. *)
Definition read_only_notes : Contents.IModel :=
  {| Contents.name := "notes.txt"; Contents.path := "notes.txt";
     Contents.type := "file"; Contents.writable := false;
     Contents.created := Scenario.t0;
     Contents.last_modified := Some Scenario.t0;
     Contents.mimetype := "text/plain"; Contents.content := JUndefined;
     Contents.format := Some "text" |}.

Definition checkpoint_creation (c : Context)
  : Request Contents.ICheckpointModel :=
  Contents_createCheckpoint (_path c).

Definition listing_broken : Scenario.Server :=
  {| Scenario.stored :=
       Some (Scenario.file "notes.txt" Scenario.t0 (JString "remote text"));
     Scenario.checkpoints := [];
     Scenario.listing_refused := Some 500;
     Scenario.get_refused := None;
     Scenario.next_stamp := Scenario.t0_10s;
     Scenario.answers := [] |}.

(** The server of the scenario, refusing to create checkpoints. *)
Definition creation_refused (status : Z) : Handler Scenario.Server :=
  fun R q =>
    match q in Request R return Scenario.Server -> Reply R * Scenario.Server
    with
    | Contents_createCheckpoint _ => fun s => (Scenario.refused status, s)
    | q' => Scenario.server _ q'
    end.

(** The file of the scenario as a server without time stamps describes
    it, and a context that cached this description. *)
Definition unstamped : Contents.IModel :=
  {| Contents.name := "notes.txt"; Contents.path := "notes.txt";
     Contents.type := "file"; Contents.writable := true;
     Contents.created := Scenario.t0;
     Contents.last_modified := None;
     Contents.mimetype := "text/plain"; Contents.content := JUndefined;
     Contents.format := Some "text" |}.

Definition conflict_dialog : Request string :=
  ShowDialog "File Changed" [cancelButton; "REVERT"; "OVERWRITE"].

(** [revert()] run as a step of [_timeConflict], which settles with the
    metadata [remote] once the revert has settled. *)
Definition reverted_with {W : Type} (remote : Contents.IModel)
  (x : Outcome unit * Context * W * list Event)
  : Outcome (option Contents.IModel) * Context * W * list Event :=
  let '(o, c, w, tr) := x in (Fulfilled (Some remote), c, w, tr).

Definition restoration (c : Context) (checkpointID : string)
  : CheckpointRequest unit :=
  Contents_restoreCheckpoint (_path c) checkpointID.

(** How the promise of the last request settles the promise of the
    caller. *)
Definition outcome_of {R : Type} (rp : Reply R) : Outcome R :=
  match settled rp with
  | inr v => Fulfilled v
  | inl e => Rejected e
  end.

(** The server of the scenario, restoring whatever checkpoint it is
    asked to. *)
Definition checkpoint_server : CheckpointHandler Scenario.Server :=
  fun R q =>
    match q in CheckpointRequest R
          return Scenario.Server -> Reply R * Scenario.Server
    with
    | Core q' => Scenario.server _ q'
    | Contents_restoreCheckpoint _ _ => fun s => (Scenario.ok tt, s)
    end.

Definition two_checkpoints : Scenario.Server :=
  {| Scenario.stored :=
       Some (Scenario.file "notes.txt" Scenario.t0 (JString "remote text"));
     Scenario.checkpoints :=
       [ {| Contents.id := "first";
            Contents.checkpoint_last_modified := Scenario.t0 |};
         {| Contents.id := "second";
            Contents.checkpoint_last_modified := Scenario.t0_600 |} ];
     Scenario.listing_refused := None;
     Scenario.get_refused := None;
     Scenario.next_stamp := Scenario.t0_10s;
     Scenario.answers := [] |}.

(** The interval is never below the minimum interval, and a pending
    timeout was set with the current interval on an active handler. *)
Definition well_timed (h : SaveHandler.State) : Prop :=
  SaveHandler._minInterval h <= SaveHandler._interval h
  /\ (forall delay,
        SaveHandler._autosaveTimer h = Some delay ->
        delay = SaveHandler._interval h /\ SaveHandler._isActive h = true).

(** The calls that look a context up before creating one and leave the
    paths of the contexts as they are. *)
Definition open_or_disposal (c : DocumentManager.Call) : bool :=
  match c with
  | DocumentManager.call_open _ _ => true
  | DocumentManager.context_disposed _ => true
  | DocumentManager.call_createNew _ _ => false
  | DocumentManager.context_path_changed _ _ => false
  end.

(** A constructor that returns whatever its manager is. *)
Definition any_manager : DocumentManager.ContextClass :=
  fun _ _ _ => None.

(** * Properties *)

(** ** A program logic for asynchronous programs *)

Lemma wp_mono {A : Type} (p : Prog A) :
  forall Q Q' : A -> list Event -> Prop,
    (forall a tr, Q a tr -> Q' a tr) -> wp p Q -> wp p Q'.
Proof.
  induction p as [a | e k IH | R q k IH]; simpl; intros Q Q' HQ Hp.
  - auto.
  - eapply IH; [| exact Hp]. intros; auto.
  - intro rp. eapply IH; [| apply Hp]. intros; auto.
Qed.

Lemma wp_bindP {A B : Type} (p : Prog A) (f : A -> Prog B) :
  forall Q : B -> list Event -> Prop,
    wp p (fun a tr1 => wp (f a) (fun b tr2 => Q b (tr1 ++ tr2)%list)) ->
    wp (bindP p f) Q.
Proof.
  induction p as [a | e k IH | R q k IH]; simpl; intros Q Hp.
  - exact Hp.
  - apply IH. exact Hp.
  - intro rp. apply IH. apply Hp.
Qed.

Lemma wp_run {A : Type} (p : Prog A) :
  forall (Q : A -> list Event -> Prop),
    wp p Q ->
    forall (W : Type) (h : Handler W) (w : W),
      Q (result_of (run h p w)) (trace_of (run h p w)).
Proof.
  induction p as [a | e k IH | R q k IH]; simpl; intros Q Hp W h w.
  - exact Hp.
  - specialize (IH _ Hp W h w).
    destruct (run h k w) as [[a w'] tr]. exact IH.
  - destruct (h R q w) as [rp w1].
    specialize (IH rp _ (Hp rp) W h w1).
    destruct (run h (k rp) w1) as [[a w'] tr]. exact IH.
Qed.

Lemma run_bindP {W A B : Type} (h : Handler W) (p : Prog A) (f : A -> Prog B) :
  forall w,
    run h (bindP p f) w =
    let '(a, w1, tr1) := run h p w in
    let '(b, w2, tr2) := run h (f a) w1 in
    (b, w2, (tr1 ++ tr2)%list).
Proof.
  induction p as [a | e k IH | R q k IH]; simpl; intro w.
  - destruct (run h (f a) w) as [[b w2] tr2]. reflexivity.
  - rewrite IH. destruct (run h k w) as [[a w1] tr1].
    destruct (run h (f a) w1) as [[b w2] tr2]. reflexivity.
  - destruct (h R q w) as [rp w1]. rewrite IH.
    destruct (run h (k rp) w1) as [[a w1'] tr1].
    destruct (run h (f a) w1') as [[b w2] tr2]. reflexivity.
Qed.

(** The rules for the promise combinators. *)

Section PromiseRules.

Variables A B : Type.
Variable Q : Outcome B * Context -> list Event -> Prop.

Lemma wp_then (p : Async A) (f : A -> Async B) (c : Context) :
  wp (p c) (fun x tr1 =>
    match fst x with
    | Fulfilled a => wp (f a (snd x)) (fun y tr2 => Q y (tr1 ++ tr2)%list)
    | Rejected e => Q (Rejected e, snd x) tr1
    end) ->
  wp (then_ p f c) Q.
Proof.
  intro H. unfold then_. apply wp_bindP.
  eapply wp_mono; [| exact H].
  intros [[a | e] c1] tr; simpl; auto.
  rewrite app_nil_r. auto.
Qed.

Lemma wp_then2 (p : Async A) (f : A -> Async B) (g : Rejection -> Async B)
  (c : Context) :
  wp (p c) (fun x tr1 =>
    match fst x with
    | Fulfilled a => wp (f a (snd x)) (fun y tr2 => Q y (tr1 ++ tr2)%list)
    | Rejected e => wp (g e (snd x)) (fun y tr2 => Q y (tr1 ++ tr2)%list)
    end) ->
  wp (then2 p f g c) Q.
Proof.
  intro H. unfold then2. apply wp_bindP.
  eapply wp_mono; [| exact H].
  intros [[a | e] c1] tr; simpl; auto.
Qed.

End PromiseRules.

Lemma wp_catch {A : Type} (Q : Outcome A * Context -> list Event -> Prop)
  (p : Async A) (g : Rejection -> Async A) (c : Context) :
  wp (p c) (fun x tr1 =>
    match fst x with
    | Fulfilled a => Q (Fulfilled a, snd x) tr1
    | Rejected e => wp (g e (snd x)) (fun y tr2 => Q y (tr1 ++ tr2)%list)
    end) ->
  wp (catch_ p g c) Q.
Proof.
  intro H. unfold catch_. apply wp_bindP.
  eapply wp_mono; [| exact H].
  intros [[a | e] c1] tr; simpl; auto.
  rewrite app_nil_r. auto.
Qed.

Lemma wp_map {A B : Type} (Q : Outcome B * Context -> list Event -> Prop)
  (f : A -> B) (p : Async A) (c : Context) :
  wp (p c) (fun x tr =>
    match fst x with
    | Fulfilled a => Q (Fulfilled (f a), snd x) tr
    | Rejected e => Q (Rejected e, snd x) tr
    end) ->
  wp (map_ f p c) Q.
Proof.
  intro H. unfold map_. apply wp_then.
  eapply wp_mono; [| exact H].
  intros [[a | e] c1] tr; simpl; auto.
  rewrite app_nil_r. auto.
Qed.

(** ** The cached contents model *)

Lemma truthy_false_iff (v : option string) : truthy v = false <-> absent v.
Proof.
  unfold absent. destruct v as [s |]; simpl.
  - rewrite negb_false_iff, String.eqb_eq.
    split; [intros ->; auto | intros [H | H]; congruence].
  - tauto.
Qed.

Lemma strict_eq_true_iff (a b : option string) : strict_eq a b = true <-> a = b.
Proof.
  destruct a, b; simpl; try rewrite String.eqb_eq;
    split; congruence.
Qed.

Lemma strict_eq_false_iff (a b : option string) :
  strict_eq a b = false <-> a <> b.
Proof.
  rewrite <- strict_eq_true_iff. destruct (strict_eq a b); split; congruence.
Qed.

Lemma updateContentsModel_fields (m : Contents.IModel) (c : Context) :
  let c' := _updateContentsModel m c in
  _contentsModel c' = content_free m
  /\ _path c' = _path c
  /\ _hasCheckpointed c' = _hasCheckpointed c
  /\ _isDisposed c' = _isDisposed c
  /\ model c' = model c
  /\ session c' = session c
  /\ factory c' = factory c
  /\ _pathChanged c' = _pathChanged c
  /\ _disposed c' = _disposed c.
Proof.
  unfold _updateContentsModel.
  destruct (negb _ || negb _); simpl; repeat split; reflexivity.
Qed.

(** C10.  [_updateContentsModel] replaces the cached contents model by
    the content-free copy of the new metadata, and it emits [fileChanged]
    (once, with that copy) if and only if the [last_modified] cached
    before was absent or differs from the new one; otherwise nothing is
    emitted. *)
Theorem updateContentsModel_emits_iff_changed :
  forall (m : Contents.IModel) (c : Context),
    let previous := Contents.last_modified (contentsModel c) in
    let c' := _updateContentsModel m c in
    _contentsModel c' = content_free m
    /\ (_fileChanged c' = content_free m :: _fileChanged c
        <-> absent previous \/ Contents.last_modified m <> previous)
    /\ (_fileChanged c' = _fileChanged c
        <-> ~ (absent previous \/ Contents.last_modified m <> previous)).
Proof.
  intros m c previous c'.
  split; [apply updateContentsModel_fields |].
  assert (Hne : forall (x : Contents.IModel) l, x :: l <> l).
  { intros x l H. apply (f_equal (@length _)) in H. simpl in H. lia. }
  subst c'. unfold _updateContentsModel. fold previous.
  change (Contents.last_modified _) with (Contents.last_modified m) at 1.
  assert (Hne' : forall (x : Contents.IModel) l, l <> x :: l).
  { intros x l H. symmetry in H. exact (Hne _ _ H). }
  destruct (truthy previous) eqn:Ht; simpl.
  - assert (Hp : ~ absent previous).
    { rewrite <- truthy_false_iff. congruence. }
    destruct (strict_eq (Contents.last_modified m) previous) eqn:He; simpl.
    + apply strict_eq_true_iff in He.
      split; split; intro H; try tauto.
      exfalso. exact (Hne' _ _ H).
    + apply strict_eq_false_iff in He.
      split; split; intro H; try tauto.
      exfalso. exact (Hne _ _ H).
  - apply truthy_false_iff in Ht.
    split; split; intro H; try tauto.
    exfalso. exact (Hne _ _ H).
Qed.

(** ** Path changes coming from the session *)

(** C9, as the code behaves.  A session property change of type 'path'
    to a path different from the path of the context sets the path of
    the context to the path of the session, resets [_hasCheckpointed]
    and emits [pathChanged] with the new path; the cached contents model
    is left as it was and [fileChanged] is not emitted. *)
Theorem onSessionChanged_path :
  forall c : Context,
    session_path (session c) <> _path c ->
    let c' := _onSessionChanged "path" c in
    _path c' = session_path (session c)
    /\ _hasCheckpointed c' = false
    /\ _pathChanged c' = session_path (session c) :: _pathChanged c
    /\ _contentsModel c' = _contentsModel c
    /\ _fileChanged c' = _fileChanged c.
Proof.
  intros c Hne c'. subst c'. unfold _onSessionChanged. simpl.
  destruct (String.eqb (session_path (session c)) (_path c)) eqn:E.
  - apply String.eqb_eq in E. contradiction.
  - simpl. repeat split; reflexivity.
Qed.

Lemma onSessionChanged_path_witness :
  session_path (session session_renamed) <> _path session_renamed
  /\ _path (_onSessionChanged "path" session_renamed) = "renamed.txt"
  /\ _contentsModel (_onSessionChanged "path" session_renamed)
     = _contentsModel session_renamed.
Proof.
  assert (H : session_path (session session_renamed)
              <> _path session_renamed) by (vm_compute; discriminate).
  split; [exact H |].
  destruct (onSessionChanged_path session_renamed H)
    as (Hp & _ & _ & Hm & _).
  split; [exact Hp | exact Hm].
Defined.

(** C9 as stated fails: after the session-originated change from
    ["notes.txt"] to ["renamed.txt"] the path of the context is the new
    one, and the cached contents model is the one cached before, still
    naming ["notes.txt"]. *)
Lemma onSessionChanged_keeps_cached_model :
  let c' := _onSessionChanged "path" session_renamed in
  _path c' = "renamed.txt"
  /\ _path session_renamed = "notes.txt"
  /\ ~ (_contentsModel c' <> _contentsModel session_renamed)
  /\ Contents.path (_contentsModel c') = "notes.txt".
Proof.
  vm_compute. repeat split; try reflexivity.
  intro H. apply H. reflexivity.
Qed.

(** ** Renames announced by the contents service *)


(** ** Line endings on load and revert *)

Lemma replace_line_endings_converts (s : string) :
  line_endings_converted s (replace_line_endings s).
Proof.
  remember (String.length s) as n eqn:Hn.
  revert s Hn. induction n as [n IH] using lt_wf_ind. intros s Hn.
  destruct s as [| c rest]; simpl; [constructor |].
  destruct (Ascii.eqb c CR) eqn:Ec.
  - apply Ascii.eqb_eq in Ec. subst c.
    destruct rest as [| d rest'].
    + apply converted_lone_CR; [discriminate | constructor].
    + destruct (Ascii.eqb d LF) eqn:Ed.
      * apply Ascii.eqb_eq in Ed. subst d.
        apply converted_CRLF.
        apply (IH (String.length rest')); [simpl in Hn; lia | reflexivity].
      * apply converted_lone_CR.
        -- intros s' H. injection H as H _. subst d.
           rewrite Ascii.eqb_refl in Ed. discriminate.
        -- apply (IH (String.length (String d rest')));
             [simpl in *; lia | reflexivity].
  - apply converted_other.
    + intro H. subst c. rewrite Ascii.eqb_refl in Ec. discriminate.
    + apply (IH (String.length rest)); [simpl in Hn; lia | reflexivity].
Qed.

Lemma line_endings_converted_unique (s t : string) :
  line_endings_converted s t -> t = replace_line_endings s.
Proof.
  induction 1 as [| s t _ IH | s t Hlf _ IH | c s t Hc _ IH]; simpl.
  - reflexivity.
  - rewrite IH. reflexivity.
  - destruct s as [| d rest]; simpl in *.
    + rewrite IH. reflexivity.
    + destruct (Ascii.eqb d LF) eqn:Ed.
      * apply Ascii.eqb_eq in Ed. subst d. exfalso. apply (Hlf rest).
        reflexivity.
      * rewrite IH. reflexivity.
  - destruct (Ascii.eqb c CR) eqn:Ec.
    + apply Ascii.eqb_eq in Ec. contradiction.
    + rewrite IH. reflexivity.
Qed.

Lemma replace_line_endings_no_CR (s : string) :
  has_CR (replace_line_endings s) = false.
Proof.
  assert (H : line_endings_converted s (replace_line_endings s))
    by apply replace_line_endings_converts.
  induction H as [| s t _ IH | s t _ _ IH | c s t Hc _ IH]; simpl; auto.
  destruct (Ascii.eqb c CR) eqn:Ec; simpl; auto.
  apply Ascii.eqb_eq in Ec. contradiction.
Qed.

Lemma replace_line_endings_id (s : string) :
  has_CR s = false -> replace_line_endings s = s.
Proof.
  induction s as [| c rest IH]; simpl; [reflexivity |].
  destruct (Ascii.eqb c CR); simpl; [discriminate |].
  intro H. rewrite IH by exact H. reflexivity.
Qed.

Lemma has_CR_iff_converted (s : string) :
  has_CR s = true <-> replace_line_endings s <> s.
Proof.
  split.
  - intros H E.
    pose proof (replace_line_endings_no_CR s) as Hn.
    rewrite E in Hn. congruence.
  - intro H. destruct (has_CR s) eqn:E; [reflexivity |].
    exfalso. apply H. apply replace_line_endings_id. exact E.
Qed.

(** C5.  For contents that are not in json format and carry the string
    [s], [updateModel] populates the model with [s] in which every
    CR LF and every lone CR is converted to LF, and sets [dirty] to true
    if and only if a conversion occurred; [loadModel] and [revert] leave
    the model of the context in that state once the fetch is
    fulfilled. *)
Theorem load_converts_line_endings :
  forall (js : Platform) (W : Type) (h : Handler W) (w w1 : W)
         (c : Context) (contents : Contents.IModel) (s : string) (d : bool),
    Contents.format contents <> Some "json" ->
    Contents.content contents = JString s ->
    h _ (fetch_full c) w
      = ({| disposed_meanwhile := d; settled := inr contents |}, w1) ->
    let loaded := snd (result_of (run h (loadModel (factory c) (_path c) c) w)) in
    let reverted := snd (result_of (run h (revert js c) w)) in
    (exists m,
       updateModel (model c) contents = inr m
       /\ value m = JString (replace_line_endings s)
       /\ line_endings_converted s (replace_line_endings s)
       /\ has_CR (replace_line_endings s) = false
       /\ (dirty m = true <-> replace_line_endings s <> s)
       /\ value (model loaded) = value m
       /\ dirty (model loaded) = dirty m
       /\ value (model reverted) = value m
       /\ dirty (model reverted) = dirty m).
Proof.
  intros js W h w w1 c contents s d Hfmt Hcontent Hget loaded reverted.
  assert (Hum : forall m0 : DocumentModel,
             updateModel m0 contents
             = inr (set_dirty (has_CR s)
                      (fromString (replace_line_endings s) m0))).
  { intro m0. unfold updateModel.
    destruct (strict_eq (Contents.format contents) (Some "json")) eqn:E.
    - apply strict_eq_true_iff in E. contradiction.
    - rewrite Hcontent. destruct (has_CR s) eqn:Ecr; [reflexivity |].
      rewrite replace_line_endings_id by exact Ecr. reflexivity. }
  exists (set_dirty (has_CR s)
            (fromString (replace_line_endings s) (model c))).
  split; [apply Hum |].
  split; [reflexivity |].
  split; [apply replace_line_endings_converts |].
  split; [apply replace_line_endings_no_CR |].
  split; [simpl; apply has_CR_iff_converted |].
  subst loaded reverted.
  unfold revert, loadModel, catch_, then_, await, fetch_full in *.
  simpl. rewrite Hget. simpl.
  rewrite !Hum. simpl.
  destruct (_isDisposed (if d then dispose c else c)); simpl;
    try match goal with
        | |- context [model (_updateContentsModel ?m ?x)] =>
            destruct (updateContentsModel_fields m x)
              as (_ & _ & _ & _ & Hm & _);
            rewrite !Hm
        end; simpl; repeat split; reflexivity.
Qed.

Lemma load_converts_line_endings_witness :
  exists m,
    value m = JString LF_text
    /\ dirty m = true
    /\ value (model (snd (result_of
         (run Scenario.server (revert Scenario.js CRLF_context) CRLF_server))))
       = JString LF_text
    /\ dirty (model (snd (result_of
         (run Scenario.server (revert Scenario.js CRLF_context) CRLF_server))))
       = true.
Proof.
  destruct (load_converts_line_endings Scenario.js Scenario.Server
              Scenario.server CRLF_server CRLF_server CRLF_context
              (Scenario.file "notes.txt" Scenario.t0 (JString CRLF_text))
              CRLF_text false)
    as (m & Hu & Hv & _ & _ & Hd & _ & _ & Hrv & Hrd).
  - simpl. discriminate.
  - reflexivity.
  - reflexivity.
  - exists m. rewrite Hrv, Hrd.
    assert (Hm : dirty m = true).
    { apply Hd. vm_compute. discriminate. }
    repeat split; auto.
Defined.

(** ** The autosave interval *)

Lemma wp_any {A : Type} (p : Prog A) (Q : A -> list Event -> Prop) :
  (forall a tr, Q a tr) -> wp p Q.
Proof.
  revert Q. induction p as [a | e k IH | R q k IH]; simpl; intros Q HQ.
  - apply HQ.
  - apply IH. intros; apply HQ.
  - intro rp. apply IH. intros; apply HQ.
Qed.

(** [save()] catches every rejection: its promise is always fulfilled. *)
Lemma save_fulfils (js : Platform) (c : Context) :
  wp (save js c) (fun x _ => fst x = Fulfilled tt).
Proof.
  unfold save. apply wp_catch. apply wp_any.
  intros [[[] | e] c1] tr; simpl; [reflexivity |].
  unfold _handleError.
  destruct e; simpl; reflexivity.
Qed.

Lemma setTimer_fields (h : SaveHandler.State) :
  SaveHandler._interval (SaveHandler._setTimer h) = SaveHandler._interval h
  /\ SaveHandler._minInterval (SaveHandler._setTimer h)
     = SaveHandler._minInterval h
  /\ SaveHandler._isDisposed (SaveHandler._setTimer h)
     = SaveHandler._isDisposed h
  /\ SaveHandler._inDialog (SaveHandler._setTimer h)
     = SaveHandler._inDialog h.
Proof.
  unfold SaveHandler._setTimer. simpl.
  destruct (SaveHandler._isActive h); simpl; repeat split; reflexivity.
Qed.

(** C6.  When the timeout callback finds the model dirty and writable
    and no dialog showing, and the context is not disposed while the
    save runs, the handler sets its interval to the higher of ten times
    the duration of the save and the minimum interval; the minimum
    interval of a handler built without [saveInterval] is 120000 ms. *)
Theorem autosave_interval :
  forall (js : Platform) (W : Type) (h : Handler W) (w : W)
         (start finish : Z) (hs : SaveHandler.State) (c : Context),
    dirty (model c) = true ->
    readOnly (model c) = false ->
    SaveHandler._inDialog hs = false ->
    SaveHandler._isDisposed hs = false ->
    let r := result_of (run h (SaveHandler._save js start finish hs c) w) in
    _disposed (snd r) = _disposed c ->
    SaveHandler._interval (fst r)
    = Z.max (10 * (finish - start)) (SaveHandler._minInterval hs)
    /\ SaveHandler._minInterval (SaveHandler.constructor None) = 120000.
Proof.
  intros js W h w start finish hs c Hdirty Hro Hdlg Hdisp r Hkept.
  subst r. split; [| reflexivity].
  revert Hkept. unfold SaveHandler._save.
  destruct (setTimer_fields hs) as (Hi & Hm & Hd & Hg).
  rewrite Hdirty, Hro, Hg, Hdlg. simpl.
  rewrite run_bindP.
  pose proof (wp_run _ _ (save_fulfils js c) W h w) as Hf.
  destruct (run h (save js c) w) as [[[o c'] w1] tr1].
  unfold result_of in Hf. simpl in Hf. subst o. simpl.
  unfold SaveHandler.deliver.
  set (h1 := if (length (_fileChanged c) <? length (_fileChanged c'))%nat
             then SaveHandler._setTimer (SaveHandler._setTimer hs)
             else SaveHandler._setTimer hs).
  assert (H1 : SaveHandler._minInterval h1 = SaveHandler._minInterval hs
               /\ SaveHandler._isDisposed h1 = false).
  { subst h1. destruct (_ <? _)%nat.
    - destruct (setTimer_fields (SaveHandler._setTimer hs)) as (_ & Hm' & Hd' & _).
      rewrite Hm', Hd', Hm, Hd. auto.
    - rewrite Hm, Hd. auto. }
  destruct H1 as [Hm1 Hd1].
  destruct (_disposed c <? _disposed c')%nat eqn:El.
  - intro Heq. unfold result_of in Heq.
    apply Nat.ltb_lt in El.
    exfalso. revert Heq.
    unfold SaveHandler.dispose. rewrite Hd1. simpl. lia.
  - rewrite Hd1. simpl. intros _. unfold result_of. simpl.
    match goal with
    | |- SaveHandler._interval (SaveHandler._setTimer ?x) = _ =>
        destruct (setTimer_fields x) as (Hi2 & _); rewrite Hi2
    end.
    simpl. rewrite Hm1. reflexivity.
Qed.

Lemma autosave_interval_witness :
  SaveHandler._interval (fst (autosave_taking 50000)) = 500000
  /\ SaveHandler._interval (fst (autosave_taking 1000)) = 120000.
Proof.
  split.
  - apply (autosave_interval Scenario.js Scenario.Server Scenario.server
             (Scenario.changed_at Scenario.t0 []) 0 50000
             default_handler Scenario.editing);
      reflexivity.
  - apply (autosave_interval Scenario.js Scenario.Server Scenario.server
             (Scenario.changed_at Scenario.t0 []) 0 1000
             default_handler Scenario.editing);
      reflexivity.
Defined.

(** ** The table of contexts of the document manager *)

Module ManagerFacts.

Import DocumentManager.

Lemma findContext_none (p f : string) (m : State) :
  _findContext p f m = None -> ~ In (p, f) (map key (_contexts m)).
Proof.
  unfold _findContext. intros Hnone Hin.
  apply in_map_iff in Hin. destruct Hin as (c & Hkey & Hin).
  pose proof (find_none _ _ Hnone c Hin) as Hc. simpl in Hc.
  unfold key in Hkey. injection Hkey as Hp Hf. subst p f.
  rewrite !String.eqb_refl in Hc. discriminate.
Qed.

Lemma NoDup_snoc {A : Type} (l : list A) (x : A) :
  NoDup l -> ~ In x l -> NoDup (l ++ [x]).
Proof.
  induction l as [| y l IH]; simpl; intros Hnd Hx.
  - constructor; [intros [] | constructor].
  - inversion Hnd as [| ? ? Hy Hl]; subst. constructor.
    + rewrite in_app_iff. simpl. intros [H | [H | []]]; [auto |].
      subst. apply Hx. left. reflexivity.
    + apply IH; auto.
Qed.

Lemma removeFirstOf_incl (l : list IContext) (u : nat) (k : string * string) :
  In k (map key (removeFirstOf l u)) -> In k (map key l).
Proof.
  induction l as [| c l IH]; simpl; [auto |].
  destruct (Nat.eqb (uid c) u); simpl; tauto.
Qed.

Lemma removeFirstOf_NoDup (l : list IContext) (u : nat) :
  NoDup (map key l) -> NoDup (map key (removeFirstOf l u)).
Proof.
  induction l as [| c l IH]; simpl; intro Hnd; [constructor |].
  inversion Hnd as [| ? ? Hc Hl]; subst.
  destruct (Nat.eqb (uid c) u); simpl; [exact Hl |].
  constructor; [| apply IH; exact Hl].
  intro H. apply Hc. eapply removeFirstOf_incl. exact H.
Qed.

Section Class.

Variable Context_class : ContextClass.

Lemma open_unique (p wn : string) (m : State) :
  unique_contexts m -> unique_contexts (snd (open Context_class p wn m)).
Proof.
  unfold unique_contexts, open, _createOrOpenDocument. intro Hu.
  destruct (_widgetFactoryFor p wn m) as [wf |]; [| exact Hu].
  match goal with
  | |- context [getModelFactory _ ?n] =>
      destruct (getModelFactory (registry m) n) as [f |]; [| exact Hu]
  end.
  destruct (_findContext p (factory_name f) m) as [c |] eqn:Ef; simpl.
  - exact Hu.
  - unfold _createContext.
    destruct (Context_class (services m) p f) as [e |]; simpl; [exact Hu |].
    rewrite map_app. simpl. apply NoDup_snoc; [exact Hu |].
    apply findContext_none. exact Ef.
Qed.

Hypothesis needs_manager : forall p f, Context_class None p f <> None.




End Class.

End ManagerFacts.



(** ** Invariants of save and revert

    A relation [I] between the context before a step, the context after
    it and the events of the step, that is reflexive and composes along
    consecutive steps, and that every elementary step satisfies, is
    satisfied by [revert], [_save] and [save] as a whole. *)

Lemma dispose_fields (c : Context) :
  _path (dispose c) = _path c
  /\ _hasCheckpointed (dispose c) = _hasCheckpointed c
  /\ _contentsModel (dispose c) = _contentsModel c
  /\ factory (dispose c) = factory c
  /\ dirty (model (dispose c)) = dirty (model c)
  /\ value (model (dispose c)) = value (model c).
Proof.
  unfold dispose. destruct (_isDisposed c); simpl; repeat split; reflexivity.
Qed.

Lemma meanwhile_fields {R : Type} (rp : Reply R) (c : Context) :
  _path (meanwhile rp c) = _path c
  /\ _hasCheckpointed (meanwhile rp c) = _hasCheckpointed c
  /\ _contentsModel (meanwhile rp c) = _contentsModel c
  /\ factory (meanwhile rp c) = factory c
  /\ dirty (model (meanwhile rp c)) = dirty (model c)
  /\ value (model (meanwhile rp c)) = value (model c).
Proof.
  unfold meanwhile. destruct (disposed_meanwhile rp).
  - apply dispose_fields.
  - repeat split; reflexivity.
Qed.

Lemma save_unfold (js : Platform) :
  save js
  = settle_save js (fun c =>
      if negb (isCollaborative (model c)) then _maybeSave js c
      else map_ Some _save c).
Proof. reflexivity. Qed.

Section Invariant.

Variable js : Platform.
Variable I : Context -> Context -> list Event -> Prop.

Hypothesis I_refl : forall c, I c c [].
Hypothesis I_trans :
  forall c c1 c2 tr1 tr2,
    I c c1 tr1 -> I c1 c2 tr2 -> I c c2 (tr1 ++ tr2)%list.

Lemma holds_resolve {A : Type} (a : A) (c : Context) :
  holds_from I c (resolve a c).
Proof. apply I_refl. Qed.

Lemma holds_reject {A : Type} (e : Rejection) (c : Context) :
  holds_from I c (@reject A e c).
Proof. apply I_refl. Qed.

Lemma holds_assign (f : Context -> Context) (c : Context) :
  I c (f c) [] -> holds_from I c (assign f c).
Proof. intro H. exact H. Qed.

Lemma holds_then_with {A B : Type} (P : Context -> Prop)
  (p : Async A) (f : A -> Async B) (c : Context) :
  wp (p c) (fun x tr => I c (snd x) tr /\ P (snd x)) ->
  (forall a c1, P c1 -> holds_from I c1 (f a c1)) ->
  holds_from I c (then_ p f c).
Proof.
  intros Hp Hf. apply wp_then. eapply wp_mono; [| exact Hp].
  intros [[a | e] c1] tr [HI HP]; simpl in *.
  - eapply wp_mono; [| apply (Hf a c1 HP)].
    intros y tr2 H2. simpl in H2. eapply I_trans; eauto.
  - exact HI.
Qed.

Lemma holds_then {A B : Type} (p : Async A) (f : A -> Async B) (c : Context) :
  holds_from I c (p c) ->
  (forall a c1, holds_from I c1 (f a c1)) ->
  holds_from I c (then_ p f c).
Proof.
  intros Hp Hf. apply (holds_then_with (fun _ => True)).
  - eapply wp_mono; [| exact Hp]. simpl. auto.
  - intros a c1 _. apply Hf.
Qed.

Lemma holds_catch {A : Type} (p : Async A) (g : Rejection -> Async A)
  (c : Context) :
  holds_from I c (p c) ->
  (forall e c1, holds_from I c1 (g e c1)) ->
  holds_from I c (catch_ p g c).
Proof.
  intros Hp Hg. apply wp_catch. eapply wp_mono; [| exact Hp].
  intros [[a | e] c1] tr HI; simpl in *.
  - exact HI.
  - eapply wp_mono; [| apply (Hg e c1)].
    intros y tr2 H2. simpl in H2. eapply I_trans; eauto.
Qed.

Lemma holds_then2 {A B : Type} (p : Async A) (f : A -> Async B)
  (g : Rejection -> Async B) (c : Context) :
  holds_from I c (p c) ->
  (forall a c1, holds_from I c1 (f a c1)) ->
  (forall e c1, holds_from I c1 (g e c1)) ->
  holds_from I c (then2 p f g c).
Proof.
  intros Hp Hf Hg. apply wp_then2. eapply wp_mono; [| exact Hp].
  intros [[a | e] c1] tr HI; simpl in *.
  - eapply wp_mono; [| apply (Hf a c1)].
    intros y tr2 H2. simpl in H2. eapply I_trans; eauto.
  - eapply wp_mono; [| apply (Hg e c1)].
    intros y tr2 H2. simpl in H2. eapply I_trans; eauto.
Qed.

Lemma holds_map {A B : Type} (f : A -> B) (p : Async A) (c : Context) :
  holds_from I c (p c) -> holds_from I c (map_ f p c).
Proof.
  intro Hp. unfold map_. apply holds_then; [exact Hp |].
  intros a c1. apply holds_resolve.
Qed.

(** The elementary steps. *)

Hypothesis I_fire : forall c e, I c c [Fired e].
Hypothesis I_update : forall m c, I c (_updateContentsModel m c) [].
Hypothesis I_model : forall m c, I c (set_model m c) [].
Hypothesis I_get :
  forall c opts rp,
    I c (meanwhile rp c) [Called (Contents_get (_path c) opts) rp].
Hypothesis I_put :
  forall c opts rp,
    I c (meanwhile rp c) [Called (Contents_save (_path c) opts) rp].
Hypothesis I_list :
  forall c rp,
    I c (meanwhile rp c) [Called (Contents_listCheckpoints (_path c)) rp].
Hypothesis I_checkpoint :
  forall c,
    _hasCheckpointed c = false ->
    holds_from I c
      (then_ createCheckpoint (fun _ => assign (set_hasCheckpointed true)) c).

Lemma holds_await_with {R : Type} (q : Request R) (c : Context) :
  (forall rp, I c (meanwhile rp c) [Called q rp]) ->
  wp (await q c)
    (fun x tr => I c (snd x) tr
                 /\ _hasCheckpointed (snd x) = _hasCheckpointed c).
Proof.
  intro H. unfold await. simpl. intro rp.
  pose proof (H rp) as HI.
  destruct (meanwhile_fields rp c) as (_ & Hflag & _).
  unfold meanwhile in *.
  destruct (settled rp); simpl; auto.
Qed.

Lemma holds_await {R : Type} (q : Request R) (c : Context) :
  (forall rp, I c (meanwhile rp c) [Called q rp]) ->
  holds_from I c (await q c).
Proof.
  intro H. eapply wp_mono; [| apply holds_await_with; exact H].
  simpl. tauto.
Qed.

Lemma holds_fire (e : Effect) (c : Context) : holds_from I c (fire e c).
Proof. apply I_fire. Qed.

Lemma holds_handleError (err : Rejection) (title : string) (c : Context) :
  holds_from I c (_handleError js err title c).
Proof. unfold _handleError. destruct err; apply holds_fire. Qed.

Lemma holds_saveModel (c : Context) :
  holds_from I c (saveModel (factory c) (model c) (_path c) c).
Proof. unfold saveModel. apply holds_await. intro rp. apply I_put. Qed.

Lemma holds_loadModel (c : Context) :
  holds_from I c (loadModel (factory c) (_path c) c).
Proof.
  unfold loadModel. apply holds_then.
  - apply holds_await. intro rp. apply I_get.
  - intros contents c1. unfold holds_from.
    destruct (updateModel (model c1) contents); simpl.
    + apply I_refl.
    + apply I_model.
Qed.

Lemma holds_revert (c : Context) : holds_from I c (revert js c).
Proof.
  unfold revert. apply holds_catch.
  - apply holds_then; [apply holds_loadModel |].
    intros contents c1. destruct (_isDisposed c1).
    + apply holds_resolve.
    + apply holds_assign. apply I_update.
  - intros e c1. apply holds_handleError.
Qed.

Lemma holds_maybeCheckpoint (c : Context) : holds_from I c (_maybeCheckpoint c).
Proof.
  unfold _maybeCheckpoint.
  destruct (negb (Contents.writable (contentsModel c)) || _hasCheckpointed c)
    eqn:E.
  - apply holds_resolve.
  - apply orb_false_iff in E. destruct E as [_ Hflag].
    apply holds_catch.
    + apply (holds_then_with (fun c1 => _hasCheckpointed c1 = false)).
      * eapply wp_mono;
          [| apply holds_await_with; intro rp; apply I_list].
        simpl. intros x tr [HI Hf]. split; [exact HI | congruence].
      * intros checkpoints c1 Hc1.
        destruct (negb (_isDisposed c1) && (length checkpoints =? 0)%nat
                  && Contents.writable (contentsModel c1)).
        -- apply I_checkpoint. exact Hc1.
        -- apply holds_resolve.
    + intros e c1. destruct (negb (response_status_is 403 e)).
      * apply holds_reject.
      * apply holds_resolve.
Qed.

Lemma holds_save_ (c : Context) : holds_from I c (_save c).
Proof.
  unfold _save. apply holds_then; [apply holds_maybeCheckpoint |].
  intros _ c1. apply holds_saveModel.
Qed.

Lemma holds_settle_save (p : Async (option Contents.IModel)) (c : Context) :
  holds_from I c (p c) -> holds_from I c (settle_save js p c).
Proof.
  intro Hp. unfold settle_save. apply holds_catch.
  - apply holds_then; [exact Hp |].
    intros value c1. destruct (_isDisposed c1).
    + apply holds_resolve.
    + destruct value as [v |]; unfold holds_from, assign, reject; simpl.
      * replace (@nil Event) with (@nil Event ++ [])%list by reflexivity.
        eapply I_trans; [apply I_model | apply I_update].
      * apply I_model.
  - intros e c1. apply holds_handleError.
Qed.

Hypothesis I_dialog :
  forall c title buttons rp,
    I c (meanwhile rp c) [Called (ShowDialog title buttons) rp].

Lemma holds_timeConflict (model : Contents.IModel) (c : Context) :
  holds_from I c (_timeConflict js model c).
Proof.
  unfold _timeConflict. apply holds_then; [apply holds_fire |].
  intros _ c1. apply holds_then.
  - apply holds_await. intro rp. apply I_dialog.
  - intros label c2. destruct (_isDisposed c2); [apply holds_reject |].
    destruct (String.eqb label "OVERWRITE").
    + apply holds_map. apply holds_save_.
    + destruct (String.eqb label "REVERT").
      * apply holds_then; [apply holds_revert |].
        intros _ c3. apply holds_resolve.
      * apply holds_resolve.
Qed.

Lemma holds_maybeSave (c : Context) : holds_from I c (_maybeSave js c).
Proof.
  unfold _maybeSave. apply holds_then2.
  - apply holds_await. intro rp. apply I_get.
  - intros model c1. destruct (_isDisposed c1); [apply holds_reject |].
    match goal with
    | |- context [if ?b then _ else _] => destruct b
    end.
    + apply holds_timeConflict.
    + apply holds_map. apply holds_save_.
  - intros e c1. destruct (response_status_is 404 e).
    + apply holds_map. apply holds_save_.
    + apply holds_reject.
Qed.

Lemma holds_save (c : Context) : holds_from I c (save js c).
Proof.
  rewrite save_unfold. apply holds_settle_save.
  destruct (negb (isCollaborative (model c))).
  - apply holds_maybeSave.
  - apply holds_map. apply holds_save_.
Qed.

Lemma holds_saves (n : nat) (c : Context) : holds_from I c (saves js n c).
Proof.
  revert c. induction n as [| n IH]; intro c; simpl.
  - apply holds_resolve.
  - apply holds_then; [apply holds_save |].
    intros _ c1. apply IH.
Qed.

End Invariant.

(** ** Checkpoints *)

Lemma count_app (f : Event -> bool) (tr1 tr2 : list Event) :
  count f (tr1 ++ tr2) = (count f tr1 + count f tr2)%nat.
Proof. unfold count. rewrite filter_app, length_app. reflexivity. Qed.

Lemma checkpoint_account_called {R : Type} (q : Request R) (rp : Reply R)
  (c : Context) :
  is_checkpoint_request (Called q rp) = false ->
  checkpoint_account c (meanwhile rp c) [Called q rp].
Proof.
  intro Hq. unfold checkpoint_account.
  destruct (meanwhile_fields rp c) as (_ & Hflag & _). rewrite Hflag.
  destruct q; simpl in *; try reflexivity. discriminate.
Qed.

Lemma checkpoint_account_saves (js : Platform) (n : nat) (c : Context) :
  wp (saves js n c) (fun x tr => checkpoint_account c (snd x) tr).
Proof.
  apply (holds_saves js checkpoint_account); unfold checkpoint_account.
  - intro c0. reflexivity.
  - intros c0 c1 c2 tr1 tr2 H1 H2. rewrite count_app. lia.
  - intros c0 e. reflexivity.
  - intros m c0.
    destruct (updateContentsModel_fields m c0) as (_ & _ & Hflag & _).
    rewrite Hflag. reflexivity.
  - intros m c0. reflexivity.
  - intros c0 opts rp. apply checkpoint_account_called. reflexivity.
  - intros c0 opts rp. apply checkpoint_account_called. reflexivity.
  - intros c0 rp. apply checkpoint_account_called. reflexivity.
  - intros c0 Hflag. unfold holds_from, then_, createCheckpoint, await, assign.
    simpl. intro rp.
    destruct (meanwhile_fields rp c0) as (_ & Hm & _). unfold meanwhile in Hm.
    destruct rp as [d [e | v]]; simpl in *;
      unfold count; simpl; unfold fulfils; simpl;
      rewrite ?Hm, Hflag; reflexivity.
  - intros c0 title buttons rp. apply checkpoint_account_called. reflexivity.
Qed.

(** ** The path that save addresses *)



(** ** Conflict detection in save *)

Lemma run_maybeSave (js : Platform) {W : Type} (h : Handler W) (w w1 : W)
  (c : Context) (rp : Reply Contents.IModel) :
  h _ (metadata_fetch c) w = (rp, w1) ->
  run h (_maybeSave js c) w
  = prepend (Called (metadata_fetch c) rp)
      (run h (after_fetch js rp (meanwhile rp c)) w1).
Proof.
  intro Hget. unfold _maybeSave, then2, await, metadata_fetch in *.
  simpl. rewrite Hget. unfold after_fetch, meanwhile.
  destruct rp as [d [e | v]]; simpl; reflexivity.
Qed.

Lemma run_save (js : Platform) {W : Type} (h : Handler W) (w w1 : W)
  (c : Context) (rp : Reply Contents.IModel) :
  isCollaborative (model c) = false ->
  h _ (metadata_fetch c) w = (rp, w1) ->
  run h (save js c) w
  = prepend (Called (metadata_fetch c) rp)
      (run h (settle_save js (after_fetch js rp) (meanwhile rp c)) w1).
Proof.
  intros Hc Hget. rewrite save_unfold.
  unfold settle_save, catch_, then_. rewrite Hc. simpl negb. cbv iota.
  rewrite !run_bindP. rewrite (run_maybeSave js h w w1 c rp Hget).
  destruct (run h (after_fetch js rp (meanwhile rp c)) w1)
    as [[[o c1] w2] tr1]. simpl.
  match goal with
  | |- context [run h ?p w2] => destruct (run h p w2) as [[[o2 c2] w3] tr2]
  end.
  simpl.
  match goal with
  | |- context [run h ?p w3] => destruct (run h p w3) as [[[o3 c3] w4] tr3]
  end.
  reflexivity.
Qed.

Ltac no_conflict_step :=
  unfold no_conflict, conflict_declared; intros;
  first [ reflexivity
        | rewrite existsb_app; apply orb_false_iff; split; assumption ].

(** A save that goes straight to [_save] opens no conflict dialog. *)
Lemma direct_save_no_conflict (js : Platform) (c : Context) :
  wp (settle_save js (map_ Some _save) c)
    (fun x tr => conflict_declared tr = false).
Proof.
  apply (holds_settle_save js no_conflict); try solve [no_conflict_step].
  apply (holds_map no_conflict); try solve [no_conflict_step].
  apply (holds_save_ no_conflict); try solve [no_conflict_step].
  intros c0 _. unfold holds_from, then_, createCheckpoint, await, assign.
  simpl. intro rp. destruct (settled rp); reflexivity.
Qed.

(** C1.  On a context that is not collaborative and is not disposed
    while the metadata is fetched, whose cached [last_modified] is the
    time stamp [T] of instant [t], a fetch fulfilled with metadata whose
    [last_modified] is the time stamp of instant [t'] makes [save()]
    open the conflict dialog if and only if [t' - t > 500]; otherwise
    [_maybeSave] goes on with [_save()]. *)
Theorem conflict_iff_beyond_tolerance :
  forall (js : Platform) (W : Type) (h : Handler W) (w w1 : W)
         (c : Context) (remote : Contents.IModel) (T T' : string) (t t' : Z),
    isCollaborative (model c) = false ->
    _isDisposed c = false ->
    Contents.last_modified (contentsModel c) = Some T ->
    T <> "" ->
    Date_getTime js T = Some t ->
    Contents.last_modified remote = Some T' ->
    Date_getTime js T' = Some t' ->
    h _ (metadata_fetch c) w
      = ({| disposed_meanwhile := false; settled := inr remote |}, w1) ->
    (conflict_declared (trace_of (run h (save js c) w)) = true
     <-> t' - t > 500)
    /\ (t' - t > 500 ->
        run h (_maybeSave js c) w
        = prepend (Called (metadata_fetch c)
                     {| disposed_meanwhile := false; settled := inr remote |})
            (run h (_timeConflict js remote c) w1))
    /\ (t' - t <= 500 ->
        run h (_maybeSave js c) w
        = prepend (Called (metadata_fetch c)
                     {| disposed_meanwhile := false; settled := inr remote |})
            (run h (map_ Some _save c) w1)).
Proof.
  intros js W h w w1 c remote T T' t t' Hc Hd HT Hne Ht HT' Ht' Hget.
  set (rp := {| disposed_meanwhile := false; settled := inr remote |}) in *.
  assert (Htruthy : truthy (Some T) = true).
  { simpl. apply negb_true_iff, String.eqb_neq. exact Hne. }
  assert (Hafter : after_fetch js rp (meanwhile rp c)
                   = if t' - t >? 500 then _timeConflict js remote c
                     else map_ Some _save c).
  { unfold after_fetch, meanwhile. simpl. rewrite Hd, HT, HT', Htruthy.
    simpl. rewrite Ht, Ht'. simpl. reflexivity. }
  split; [| split].
  - rewrite (run_save js h w w1 c rp Hc Hget).
    unfold settle_save, catch_, then_. rewrite Hafter.
    destruct (t' - t >? 500) eqn:E.
    + split; [intros _; apply Z.gtb_lt in E; lia |]. intros _.
      unfold _timeConflict, then_, fire, await. simpl.
      destruct (h _ _ w1) as [rp2 w2].
      repeat match goal with
             | |- context [run h ?p ?x] =>
                 destruct (run h p x) as [[? ?] ?]
             end.
      reflexivity.
    + assert (Hle : ~ t' - t > 500).
      { intro Hgt. apply Z.gt_lt in Hgt. apply Z.gtb_lt in Hgt. congruence. }
      split; [| intro; contradiction]. intro Htrue. exfalso.
      pose proof (wp_run _ _ (direct_save_no_conflict js c) W h w1) as Hno.
      unfold settle_save, catch_, then_ in Hno.
      revert Htrue Hno. unfold meanwhile. simpl.
      match goal with
      | |- context [run h ?p w1] => destruct (run h p w1) as [[x w2] tr]
      end.
      unfold trace_of, conflict_declared. simpl. congruence.
  - intro Hgt. rewrite (run_maybeSave js h w w1 c rp Hget), Hafter.
    replace (t' - t >? 500) with true; [reflexivity |].
    symmetry. apply Z.gtb_lt. lia.
  - intro Hle. rewrite (run_maybeSave js h w w1 c rp Hget), Hafter.
    destruct (t' - t >? 500) eqn:E; [| reflexivity].
    apply Z.gtb_lt in E. lia.
Qed.

Lemma conflict_iff_beyond_tolerance_witness :
  conflict_declared
    (trace_of (run Scenario.server (save Scenario.js Scenario.editing)
                 (Scenario.changed_at Scenario.t0_600 []))) = true
  /\ conflict_declared
       (trace_of (run Scenario.server (save Scenario.js Scenario.editing)
                    (Scenario.changed_at Scenario.t0_400 []))) = false.
Proof.
  assert (Hne : Scenario.t0 <> "") by discriminate.
  split.
  - destruct (conflict_iff_beyond_tolerance Scenario.js Scenario.Server
                Scenario.server (Scenario.changed_at Scenario.t0_600 [])
                (Scenario.changed_at Scenario.t0_600 []) Scenario.editing
                (Scenario.without_content
                   (Scenario.file "notes.txt" Scenario.t0_600 JUndefined))
                Scenario.t0 Scenario.t0_600 1514764800000 1514764800600
                eq_refl eq_refl eq_refl Hne eq_refl eq_refl eq_refl eq_refl)
      as [Hiff _].
    apply Hiff. lia.
  - destruct (conflict_iff_beyond_tolerance Scenario.js Scenario.Server
                Scenario.server (Scenario.changed_at Scenario.t0_400 [])
                (Scenario.changed_at Scenario.t0_400 []) Scenario.editing
                (Scenario.without_content
                   (Scenario.file "notes.txt" Scenario.t0_400 JUndefined))
                Scenario.t0 Scenario.t0_400 1514764800000 1514764800400
                eq_refl eq_refl eq_refl Hne eq_refl eq_refl eq_refl eq_refl)
      as [Hiff _].
    destruct (conflict_declared _) eqn:E; [| reflexivity].
    destruct Hiff as [Hgt _]. specialize (Hgt eq_refl). lia.
Defined.

(** ** Checkpoints across saves *)

Lemma trace_of_prepend {W A : Type} (ev : Event) (x : A * W * list Event) :
  trace_of (prepend ev x) = ev :: trace_of x.
Proof. destruct x as [[a w] tr]. reflexivity. Qed.

Lemma trace_then {W A B : Type} (h : Handler W) (p : Async A)
  (f : A -> Async B) (c : Context) (w : W) :
  exists tr2,
    trace_of (run h (then_ p f c) w) = (trace_of (run h (p c) w) ++ tr2)%list.
Proof.
  unfold then_. rewrite run_bindP.
  destruct (run h (p c) w) as [[[o c1] w1] tr1].
  match goal with
  | |- context [run h ?q w1] => destruct (run h q w1) as [[x w2] tr2]
  end.
  exists tr2. reflexivity.
Qed.

Lemma trace_catch {W A : Type} (h : Handler W) (p : Async A)
  (g : Rejection -> Async A) (c : Context) (w : W) :
  exists tr2,
    trace_of (run h (catch_ p g c) w) = (trace_of (run h (p c) w) ++ tr2)%list.
Proof.
  unfold catch_. rewrite run_bindP.
  destruct (run h (p c) w) as [[[o c1] w1] tr1].
  match goal with
  | |- context [run h ?q w1] => destruct (run h q w1) as [[x w2] tr2]
  end.
  exists tr2. reflexivity.
Qed.

Lemma trace_settle_save {W : Type} (js : Platform) (h : Handler W)
  (p : Async (option Contents.IModel)) (c : Context) (w : W) :
  exists tr2,
    trace_of (run h (settle_save js p c) w)
    = (trace_of (run h (p c) w) ++ tr2)%list.
Proof.
  unfold settle_save.
  match goal with
  | |- context [catch_ (then_ p ?F) ?G] =>
      destruct (trace_catch h (then_ p F) G c w) as [t2 H2];
      destruct (trace_then h p F c w) as [t1 H1]
  end.
  rewrite H2, H1, <- app_assoc. eexists. reflexivity.
Qed.

(** On a writable context that has not checkpointed and is not disposed,
    an empty listing followed by a fulfilled creation makes [_save]
    create the checkpoint, set [_hasCheckpointed] and go on to write the
    model. *)
Lemma save__creates_checkpoint :
  forall (W : Type) (h : Handler W) (w w1 w2 : W) (c : Context)
         (rp1 : Reply (list Contents.ICheckpointModel))
         (rp2 : Reply Contents.ICheckpointModel)
         (cp : Contents.ICheckpointModel),
    Contents.writable (contentsModel c) = true ->
    _hasCheckpointed c = false ->
    h _ (listing c) w = (rp1, w1) ->
    settled rp1 = inr [] ->
    _isDisposed (meanwhile rp1 c) = false ->
    h _ (checkpoint_creation c) w1 = (rp2, w2) ->
    settled rp2 = inr cp ->
    let c2 := set_hasCheckpointed true (meanwhile rp2 (meanwhile rp1 c)) in
    run h (_save c) w
    = prepend (Called (listing c) rp1)
        (prepend (Called (checkpoint_creation c) rp2)
           (run h (saveModel (factory c2) (model c2) (_path c2) c2) w2)).
Proof.
  intros W h w w1 w2 c rp1 rp2 cp Hw Hflag Hlist Hs1 Hd Hcreate Hs2 c2.
  assert (Hp1 : _path (meanwhile rp1 c) = _path c)
    by apply meanwhile_fields.
  assert (Hw1 : Contents.writable (contentsModel (meanwhile rp1 c)) = true).
  { unfold contentsModel in *.
    destruct (meanwhile_fields rp1 c) as (_ & _ & Hm & _).
    rewrite Hm. exact Hw. }
  subst c2.
  unfold _save, then_, _maybeCheckpoint, catch_, then_, listCheckpoints,
    createCheckpoint, await, assign, listing, checkpoint_creation in *.
  rewrite Hw, Hflag. simpl. rewrite Hlist. simpl.
  unfold meanwhile in *. rewrite Hs1. simpl.
  rewrite Hd, Hw1. simpl. rewrite Hp1, Hcreate. simpl.
  rewrite Hs2. simpl.
  match goal with
  | |- context [h ?R ?q w2] => destruct (h R q w2) as [rp3 w3]
  end.
  simpl. destruct (settled rp3); reflexivity.
Qed.

(** C3, as the code behaves.  Across any number of sequential [save()]
    calls at most one checkpoint is created, and none when
    [_hasCheckpointed] is already set.  A checkpoint is requested only
    when the listing of checkpoints is empty: after a non-empty listing
    [_maybeCheckpoint] is done, with no request and the flag unchanged.
    A 403 response to the listing is swallowed: [_save] goes on to write
    the model, without a checkpoint.  When the first save of a context
    that is writable, not disposed and has not checkpointed finds no
    conflict and an empty listing, and the creation is fulfilled, then
    exactly one checkpoint is created across [S n] sequential saves,
    whatever [n] is and whatever the environment replies afterwards. *)
Theorem at_most_one_checkpoint :
  forall (js : Platform) (W : Type) (h : Handler W) (w w1 : W)
         (c : Context) (n : nat)
         (rp : Reply (list Contents.ICheckpointModel)),
    Contents.writable (contentsModel c) = true ->
    _hasCheckpointed c = false ->
    h _ (listing c) w = (rp, w1) ->
    (forall (c0 : Context) (w0 : W),
       let tr := trace_of (run h (saves js n c0) w0) in
       (count is_checkpoint_created tr <= 1)%nat
       /\ (_hasCheckpointed c0 = true -> count is_checkpoint_created tr = 0%nat))
    /\ (forall cp cps,
          settled rp = inr (cp :: cps) ->
          run h (_maybeCheckpoint c) w
          = (Fulfilled tt, meanwhile rp c, w1, [Called (listing c) rp]))
    /\ (forall err,
          settled rp = inl err ->
          response_status_is 403 err = true ->
          let c1 := meanwhile rp c in
          run h (_save c) w
          = prepend (Called (listing c) rp)
              (run h (saveModel (factory c1) (model c1) (_path c1) c1) w1))
    /\ (forall (w0 w2 : W) (remote : Contents.IModel)
               (rp2 : Reply Contents.ICheckpointModel)
               (cp : Contents.ICheckpointModel),
          isCollaborative (model c) = false ->
          _isDisposed c = false ->
          truthy (Contents.last_modified (contentsModel c))
          && later_than_tolerance
               (getTime js (Contents.last_modified remote))
               (getTime js (Contents.last_modified (contentsModel c)))
          = false ->
          h _ (metadata_fetch c) w0
            = ({| disposed_meanwhile := false; settled := inr remote |}, w) ->
          rp = {| disposed_meanwhile := false; settled := inr [] |} ->
          h _ (checkpoint_creation c) w1 = (rp2, w2) ->
          settled rp2 = inr cp ->
          count is_checkpoint_created
            (trace_of (run h (saves js (S n) c) w0)) = 1%nat
          /\ _hasCheckpointed
               (snd (result_of (run h (saves js (S n) c) w0))) = true).
Proof.
  intros js W h w w1 c n rp Hw Hflag Hlist.
  split; [| split; [| split]].
  - intros c0 w0 tr. subst tr.
    pose proof (wp_run _ _ (checkpoint_account_saves js n c0) W h w0) as H.
    unfold checkpoint_account in H.
    destruct (_hasCheckpointed c0), (_hasCheckpointed (snd (result_of _)));
      simpl in H; split; try lia; intro; try lia; discriminate.
  - intros cp cps Hs.
    unfold _maybeCheckpoint, catch_, then_, listCheckpoints, await, listing in *.
    rewrite Hw, Hflag. simpl. rewrite Hlist. simpl.
    unfold meanwhile. rewrite Hs. simpl.
    rewrite andb_false_r. simpl. reflexivity.
  - intros err Hs H403 c1. subst c1.
    unfold _save, then_, _maybeCheckpoint, catch_, then_, listCheckpoints,
      await, listing in *.
    rewrite Hw, Hflag. simpl. rewrite Hlist. simpl.
    unfold meanwhile. rewrite Hs. simpl. rewrite H403. simpl.
    destruct (h _ _ w1) as [rp2 w2]. simpl.
    destruct (settled rp2); reflexivity.
  - intros w0 w2 remote rp2 cp Hc Hd Hquiet Hget Hrp Hcreate Hs2.
    subst rp.
    pose proof (wp_run _ _ (checkpoint_account_saves js (S n) c) W h w0)
      as Hacc.
    unfold checkpoint_account in Hacc. rewrite Hflag in Hacc.
    assert (Hone : (1 <= count is_checkpoint_created
                          (trace_of (run h (saves js (S n) c) w0)))%nat).
    { change (saves js (S n)) with (then_ (save js) (fun _ => saves js n)).
      destruct (trace_then h (save js) (fun _ => saves js n) c w0)
        as [t1 ->].
      rewrite (run_save js h w0 w c _ Hc Hget), trace_of_prepend.
      destruct (trace_settle_save js h
                  (after_fetch js
                     {| disposed_meanwhile := false; settled := inr remote |})
                  (meanwhile
                     {| disposed_meanwhile := false; settled := inr remote |}
                     c) w) as [t2 ->].
      assert (Hafter : after_fetch js
                         {| disposed_meanwhile := false;
                            settled := inr remote |}
                         (meanwhile
                            {| disposed_meanwhile := false;
                               settled := inr remote |} c)
                       = map_ Some _save c).
      { unfold after_fetch, meanwhile. simpl. rewrite Hd.
        unfold contentsModel in *. rewrite Hquiet. reflexivity. }
      rewrite Hafter. unfold map_.
      destruct (trace_then h _save (fun a => resolve (Some a)) c w)
        as [t3 ->].
      rewrite (save__creates_checkpoint W h w w1 w2 c _ rp2 cp
                 Hw Hflag Hlist eq_refl Hd Hcreate Hs2).
      rewrite !trace_of_prepend.
      unfold count, metadata_fetch, listing, checkpoint_creation. simpl.
      unfold fulfils. rewrite Hs2. simpl. apply le_n_S, Nat.le_0_l. }
    cbv beta in Hacc. unfold Nat.b2n in Hacc.
    destruct (_hasCheckpointed
                (snd (result_of (run h (saves js (S n) c) w0))));
      split; try reflexivity; lia.
Qed.

Lemma at_most_one_checkpoint_witness :
  (count is_checkpoint_created
     (three_saves (Scenario.changed_at Scenario.t0 [])) = 1)%nat
  /\ trace_of (run Scenario.server (_maybeCheckpoint Scenario.editing)
                 with_checkpoint)
     = [Called (listing Scenario.editing)
          (Scenario.ok (Scenario.checkpoints with_checkpoint))]
  /\ map is_write
       (trace_of (run Scenario.server (_save Scenario.editing)
                    listing_forbidden))
     = [false; true].
Proof.
  split; [| split].
  - destruct (at_most_one_checkpoint Scenario.js Scenario.Server
                Scenario.server (Scenario.changed_at Scenario.t0 [])
                (Scenario.changed_at Scenario.t0 []) Scenario.editing 2
                (Scenario.ok []) eq_refl eq_refl eq_refl) as (_ & _ & _ & H).
    apply (H (Scenario.changed_at Scenario.t0 [])
             (snd (Scenario.server _
                     (checkpoint_creation Scenario.editing)
                     (Scenario.changed_at Scenario.t0 [])))
             (Scenario.without_content
                (Scenario.file "notes.txt" Scenario.t0 JUndefined))
             (fst (Scenario.server _
                     (checkpoint_creation Scenario.editing)
                     (Scenario.changed_at Scenario.t0 [])))
             {| Contents.id := "checkpoint";
                Contents.checkpoint_last_modified := Scenario.t0_10s |});
      reflexivity.
  - destruct (at_most_one_checkpoint Scenario.js Scenario.Server
                Scenario.server with_checkpoint with_checkpoint
                Scenario.editing 3
                (Scenario.ok (Scenario.checkpoints with_checkpoint))
                eq_refl eq_refl eq_refl) as (_ & H & _).
    rewrite (H _ _ eq_refl). reflexivity.
  - destruct (at_most_one_checkpoint Scenario.js Scenario.Server
                Scenario.server listing_forbidden listing_forbidden
                Scenario.editing 3 (Scenario.refused 403)
                eq_refl eq_refl eq_refl) as (_ & _ & H & _).
    rewrite (H _ eq_refl eq_refl). reflexivity.
Defined.

(** C3 as stated fails: on a writable context that has not
    checkpointed, three sequential saves of a file of which the server
    already lists a checkpoint write three times and create no
    checkpoint. *)
Lemma saves_without_checkpoint :
  _hasCheckpointed Scenario.editing = false
  /\ Contents.writable (contentsModel Scenario.editing) = true
  /\ count is_write (three_saves with_checkpoint) = 3%nat
  /\ count is_checkpoint_created (three_saves with_checkpoint) <> 1%nat.
Proof.
  repeat split; try reflexivity.
  vm_compute. discriminate.
Qed.

(** On a server that lists no checkpoint the first of three saves
    creates the only checkpoint. *)
Example three_saves_one_checkpoint :
  map is_checkpoint_created (three_saves (Scenario.changed_at Scenario.t0 []))
  = [false; false; true; false; false; false; false; false].
Proof. vm_compute. reflexivity. Qed.

(** ** Saving after a rename *)





Example rename_then_save_writes :
  map request_path
    (trace_of (run Scenario.server (save Scenario.js after_rename)
                 renamed_server))
  = [Some "renamed.txt"; Some "renamed.txt"; Some "renamed.txt";
     Some "renamed.txt"]
  /\ count is_write
       (trace_of (run Scenario.server (save Scenario.js after_rename)
                    renamed_server)) = 1%nat.
Proof. vm_compute. split; reflexivity. Qed.

(** ** Errors of the metadata fetch *)

(** C8.  When the fetch of the metadata is rejected with a response of
    status 404, [_maybeSave] goes on with [_save()], and [save()]
    settles as a save that went straight to [_save()].  When it is
    rejected with anything else, [save()] makes no further request: it
    reports the error under the title 'File Save Error' and leaves the
    context as it was. *)
Theorem fetch_rejected :
  forall (js : Platform) (W : Type) (h : Handler W) (w w1 : W)
         (c : Context) (rp : Reply Contents.IModel) (err : Rejection),
    isCollaborative (model c) = false ->
    h _ (metadata_fetch c) w = (rp, w1) ->
    settled rp = inl err ->
    (response_status_is 404 err = true ->
     run h (_maybeSave js c) w
     = prepend (Called (metadata_fetch c) rp)
         (run h (map_ Some _save (meanwhile rp c)) w1)
     /\ run h (save js c) w
        = prepend (Called (metadata_fetch c) rp)
            (run h (settle_save js (map_ Some _save) (meanwhile rp c)) w1))
    /\ (response_status_is 404 err = false ->
        exists body,
          run h (save js c) w
          = (Fulfilled tt, meanwhile rp c, w1,
             [Called (metadata_fetch c) rp;
              Fired (Dialog_opened "File Save Error" body [okButton])])).
Proof.
  intros js W h w w1 c rp err Hc Hget Hs. split; intro H404.
  - assert (Hafter : after_fetch js rp = map_ Some _save).
    { unfold after_fetch. rewrite Hs, H404. reflexivity. }
    split.
    + rewrite (run_maybeSave js h w w1 c rp Hget), Hafter. reflexivity.
    + rewrite (run_save js h w w1 c rp Hc Hget).
      unfold settle_save. rewrite Hafter. reflexivity.
  - rewrite (run_save js h w w1 c rp Hc Hget).
    unfold settle_save, catch_, then_, after_fetch.
    rewrite Hs, H404. unfold reject, _handleError. simpl.
    destruct err; simpl; eexists; reflexivity.
Qed.

Lemma fetch_rejected_witness :
  count is_write
    (trace_of (run Scenario.server (save Scenario.js Scenario.editing)
                 file_gone)) = 1%nat
  /\ dirty (model (snd (result_of
       (run Scenario.server (save Scenario.js Scenario.editing) file_gone))))
     = false
  /\ count is_write
       (trace_of (run Scenario.server (save Scenario.js Scenario.editing)
                    failing)) = 0%nat
  /\ dirty (model (snd (result_of
       (run Scenario.server (save Scenario.js Scenario.editing) failing))))
     = true.
Proof.
  destruct (fetch_rejected Scenario.js Scenario.Server Scenario.server
              file_gone file_gone Scenario.editing (Scenario.refused 404)
              (ResponseError 404 "" "refused") eq_refl eq_refl eq_refl)
    as [Hgone _].
  destruct (Hgone eq_refl) as [_ Hsave].
  destruct (fetch_rejected Scenario.js Scenario.Server Scenario.server
              failing failing Scenario.editing (Scenario.refused 500)
              (ResponseError 500 "" "refused") eq_refl eq_refl eq_refl)
    as [_ Hfail].
  destruct (Hfail eq_refl) as [body Hrun].
  rewrite Hsave, Hrun.
  repeat split; reflexivity.
Defined.

(** ** Cancelling the conflict dialog *)

(** When the conflict dialog is answered with neither OVERWRITE nor
    REVERT, [_timeConflict] settles with [undefined]; [save()] then
    assigns [dirty = false] before [_updateContentsModel] throws on the
    missing value, and reports the [TypeError] as a save error. *)
Lemma cancel_clears_dirty :
  forall (js : Platform) (W : Type) (h : Handler W) (w w1 w2 : W)
         (c : Context) (remote : Contents.IModel) (label : string),
    isCollaborative (model c) = false ->
    _isDisposed c = false ->
    truthy (Contents.last_modified (contentsModel c))
    && later_than_tolerance
         (getTime js (Contents.last_modified remote))
         (getTime js (Contents.last_modified (contentsModel c))) = true ->
    h _ (metadata_fetch c) w
      = ({| disposed_meanwhile := false; settled := inr remote |}, w1) ->
    h _ (ShowDialog "File Changed" [cancelButton; "REVERT"; "OVERWRITE"]) w1
      = ({| disposed_meanwhile := false; settled := inr label |}, w2) ->
    String.eqb label "OVERWRITE" = false ->
    String.eqb label "REVERT" = false ->
    let c' := snd (result_of (run h (save js c) w)) in
    dirty (model c') = false
    /\ _contentsModel c' = _contentsModel c
    /\ existsb (is_error_dialog "File Save Error")
         (trace_of (run h (save js c) w)) = true
    /\ existsb is_write (trace_of (run h (save js c) w)) = false.
Proof.
  intros js W h w w1 w2 c remote label Hc Hd Hconf Hget Hdlg Ho Hr c'.
  subst c'. rewrite (run_save js h w w1 c _ Hc Hget).
  unfold settle_save, catch_, then_, after_fetch, meanwhile. simpl.
  rewrite Hd. unfold contentsModel in Hconf. unfold contentsModel.
  rewrite Hconf.
  unfold _timeConflict, then_, fire, await. simpl.
  rewrite Hdlg. simpl. rewrite Hd, Ho, Hr. simpl. rewrite Hd. simpl.
  repeat split; reflexivity.
Qed.

(** C2, on the code.  The model is dirty, the file was changed on disk
    600 ms after the cached time stamp, and the conflict dialog is
    answered with CANCEL: nothing is written and the cached contents
    model is kept, but the model is no longer dirty, and a save error is
    reported. *)
Theorem cancel_leaves_model_clean :
  dirty (model Scenario.editing) = true
  /\ conflict_declared (trace_of cancelled) = true
  /\ count is_write (trace_of cancelled) = 0%nat
  /\ _contentsModel (snd (result_of cancelled))
     = _contentsModel Scenario.editing
  /\ dirty (model (snd (result_of cancelled))) = false
  /\ existsb (is_error_dialog "File Save Error") (trace_of cancelled) = true.
Proof. vm_compute. repeat split; reflexivity. Qed.

(** * Further properties of the code *)

(** ** Disposal of the context *)

(** [dispose()] marks the context, its session and its model as
    disposed and emits [disposed] once; a second call changes nothing.
    It keeps the path, the cached contents model, the checkpoint flag
    and the content and [dirty] flag of the model. *)
Theorem dispose_once :
  forall c : Context,
    dispose (dispose c) = dispose c
    /\ _isDisposed (dispose c) = true
    /\ (_isDisposed c = false ->
        session_isDisposed (session (dispose c)) = true
        /\ model_isDisposed (model (dispose c)) = true
        /\ _disposed (dispose c) = S (_disposed c)
        /\ _disposed (dispose (dispose c)) = S (_disposed c))
    /\ (_isDisposed c = true -> dispose c = c)
    /\ _path (dispose c) = _path c
    /\ _contentsModel (dispose c) = _contentsModel c
    /\ _hasCheckpointed (dispose c) = _hasCheckpointed c
    /\ value (model (dispose c)) = value (model c)
    /\ dirty (model (dispose c)) = dirty (model c).
Proof.
  intro c. unfold dispose.
  destruct (_isDisposed c) eqn:E; simpl; rewrite ?E; simpl;
    repeat split; try reflexivity; try assumption; try discriminate;
    intros; repeat split; reflexivity.
Qed.

Lemma dispose_once_witness :
  _disposed (dispose (dispose Scenario.editing)) = 1%nat
  /\ session_isDisposed (session (dispose Scenario.editing)) = true.
Proof.
  destruct (dispose_once Scenario.editing) as (_ & _ & H & _).
  destruct (H eq_refl) as (Hs & _ & _ & Hd).
  split; [exact Hd | exact Hs].
Defined.

(** ** Notifications the context ignores *)

(** [_onFileChanged] leaves the context exactly as it was when the
    change is not a rename, when its old path is not the path of the
    context, or when it carries no new path or an empty one. *)
Theorem onFileChanged_ignores :
  forall (js : Platform) (change : IChangedArgs) (c : Context),
    change_type change <> "rename"
    \/ path_of (oldValue change) <> Some (_path c)
    \/ path_of (newValue change) = None
    \/ path_of (newValue change) = Some "" ->
    _onFileChanged js change c = c.
Proof.
  intros js change c H. unfold _onFileChanged, path_of in *.
  destruct (String.eqb (change_type change) "rename") eqn:Et; simpl;
    [| reflexivity].
  apply String.eqb_eq in Et.
  destruct (newValue change) as [nv |]; simpl in *; [| reflexivity].
  destruct (String.eqb (Contents.path nv) "") eqn:En; simpl; [reflexivity |].
  apply String.eqb_neq in En.
  destruct (strict_eq (option_map Contents.path (oldValue change))
              (Some (_path c))) eqn:Eo; [| reflexivity].
  apply strict_eq_true_iff in Eo.
  destruct H as [H | [H | [H | H]]]; try contradiction; try discriminate.
  injection H as H. contradiction.
Qed.

Lemma onFileChanged_ignores_witness :
  _onFileChanged Scenario.js other_rename Scenario.editing = Scenario.editing.
Proof.
  apply (onFileChanged_ignores Scenario.js other_rename Scenario.editing).
  right. left. simpl. discriminate.
Defined.

(** [_onSessionChanged] leaves the context exactly as it was for a
    property other than 'path' and for a session path equal to the path
    of the context. *)
Theorem onSessionChanged_ignores :
  forall (type : string) (c : Context),
    type <> "path" \/ session_path (session c) = _path c ->
    _onSessionChanged type c = c.
Proof.
  intros type c H. unfold _onSessionChanged.
  destruct (String.eqb type "path") eqn:Et; simpl; [| reflexivity].
  apply String.eqb_eq in Et.
  destruct H as [H | H]; [contradiction |].
  rewrite H, String.eqb_refl. reflexivity.
Qed.

Lemma onSessionChanged_ignores_witness :
  _onSessionChanged "name" session_renamed = session_renamed
  /\ _onSessionChanged "path" Scenario.editing = Scenario.editing.
Proof.
  split.
  - apply (onSessionChanged_ignores "name" session_renamed).
    left. discriminate.
  - apply (onSessionChanged_ignores "path" Scenario.editing).
    right. reflexivity.
Defined.

(** ** Contents in json format *)

(** For contents in json format [updateModel] hands the content to the
    model as it is, carriage returns included, and leaves the model
    clean. *)
Theorem updateModel_json :
  forall (m : DocumentModel) (contents : Contents.IModel),
    Contents.format contents = Some "json" ->
    exists m',
      updateModel m contents = inr m'
      /\ value m' = Contents.content contents
      /\ dirty m' = false
      /\ readOnly m' = readOnly m.
Proof.
  intros m contents Hf. unfold updateModel. rewrite Hf. simpl.
  eexists. repeat split; reflexivity.
Qed.

Lemma updateModel_json_witness :
  exists m',
    updateModel (model Scenario.editing) json_with_CR = inr m'
    /\ value m' = JString CRLF_text
    /\ dirty m' = false.
Proof.
  destruct (updateModel_json (model Scenario.editing) json_with_CR eq_refl)
    as (m' & Hu & Hv & Hd & _).
  exists m'. repeat split; assumption.
Defined.

(** ** What save and revert never do *)

Lemma revert_fulfils (js : Platform) (c : Context) :
  wp (revert js c) (fun x _ => fst x = Fulfilled tt).
Proof.
  unfold revert. apply wp_catch. apply wp_any.
  intros [[[] | e] c1] tr; simpl; [reflexivity |].
  unfold _handleError. destruct e; simpl; reflexivity.
Qed.


Ltac no_fetch_step :=
  unfold no_fetch_or_dialog; intros;
  first [ reflexivity
        | rewrite existsb_app; apply orb_false_iff; split; assumption ].

(** [save()] of a collaborative model skips the conflict detection: it
    never fetches from the contents service and never waits for a
    dialog. *)
Theorem collaborative_save_skips_detection :
  forall (js : Platform) (W : Type) (h : Handler W) (w : W) (c : Context),
    isCollaborative (model c) = true ->
    existsb is_fetch_or_dialog (trace_of (run h (save js c) w)) = false.
Proof.
  intros js W h w c Hc.
  assert (Hs : save js c = settle_save js (map_ Some _save) c).
  { rewrite save_unfold. unfold settle_save, catch_, then_.
    rewrite Hc. reflexivity. }
  rewrite Hs.
  refine (wp_run _ (fun _ tr => existsb is_fetch_or_dialog tr = false) _ W h w).
  apply (holds_settle_save js no_fetch_or_dialog); try solve [no_fetch_step].
  apply (holds_map no_fetch_or_dialog); try solve [no_fetch_step].
  apply (holds_save_ no_fetch_or_dialog); try solve [no_fetch_step].
  intros c0 _. unfold holds_from, then_, createCheckpoint, await, assign.
  simpl. intro rp. destruct (settled rp); reflexivity.
Qed.

Lemma collaborative_save_skips_detection_witness :
  existsb is_fetch_or_dialog
    (trace_of (run Scenario.server (save Scenario.js collaborating)
                 (Scenario.changed_at Scenario.t0_10s []))) = false.
Proof.
  apply (collaborative_save_skips_detection Scenario.js Scenario.Server
           Scenario.server (Scenario.changed_at Scenario.t0_10s [])
           collaborating).
  reflexivity.
Defined.

(** *** Writes *)

Lemma writes_weaken (n m : nat) {A : Type} (p : Prog A) :
  (n <= m)%nat -> writes_at_most n p -> writes_at_most m p.
Proof.
  intros Hle H. eapply wp_mono; [| exact H]. simpl. intros. lia.
Qed.

Lemma writes_then (n m : nat) {A B : Type} (p : Async A) (f : A -> Async B)
  (c : Context) :
  writes_at_most n (p c) ->
  (forall a c1, writes_at_most m (f a c1)) ->
  writes_at_most (n + m) (then_ p f c).
Proof.
  intros Hp Hf. apply wp_then. eapply wp_mono; [| exact Hp].
  intros [[a | e] c1] tr Htr; simpl in *; [| lia].
  eapply wp_mono; [| apply (Hf a c1)].
  simpl. intros y tr2 H2. rewrite count_app. lia.
Qed.

Lemma writes_catch (n m : nat) {A : Type} (p : Async A)
  (g : Rejection -> Async A) (c : Context) :
  writes_at_most n (p c) ->
  (forall e c1, writes_at_most m (g e c1)) ->
  writes_at_most (n + m) (catch_ p g c).
Proof.
  intros Hp Hg. apply wp_catch. eapply wp_mono; [| exact Hp].
  intros [[a | e] c1] tr Htr; simpl in *; [lia |].
  eapply wp_mono; [| apply (Hg e c1)].
  simpl. intros y tr2 H2. rewrite count_app. lia.
Qed.

Lemma writes_then2 (n m : nat) {A B : Type} (p : Async A) (f : A -> Async B)
  (g : Rejection -> Async B) (c : Context) :
  writes_at_most n (p c) ->
  (forall a c1, writes_at_most m (f a c1)) ->
  (forall e c1, writes_at_most m (g e c1)) ->
  writes_at_most (n + m) (then2 p f g c).
Proof.
  intros Hp Hf Hg. apply wp_then2. eapply wp_mono; [| exact Hp].
  intros [[a | e] c1] tr Htr; simpl in *.
  - eapply wp_mono; [| apply (Hf a c1)].
    simpl. intros y tr2 H2. rewrite count_app. lia.
  - eapply wp_mono; [| apply (Hg e c1)].
    simpl. intros y tr2 H2. rewrite count_app. lia.
Qed.

Ltac no_write_step :=
  unfold no_write; intros;
  first [ reflexivity | rewrite count_app; lia ].

Lemma no_write_from_holds {A : Type} (c : Context)
  (p : Prog (Outcome A * Context)) :
  holds_from no_write c p -> writes_at_most 0 p.
Proof.
  intro H. eapply wp_mono; [| exact H].
  unfold no_write. simpl. intros. lia.
Qed.

Lemma maybeCheckpoint_no_write (c : Context) :
  writes_at_most 0 (_maybeCheckpoint c).
Proof.
  apply (no_write_from_holds c).
  apply (holds_maybeCheckpoint no_write); try solve [no_write_step].
  intros c0 _. unfold holds_from, then_, createCheckpoint, await, assign.
  simpl. intro rp. destruct (settled rp); reflexivity.
Qed.

Lemma revert_no_write (js : Platform) (c : Context) :
  writes_at_most 0 (revert js c).
Proof.
  apply (no_write_from_holds c).
  apply (holds_revert js no_write); solve [no_write_step].
Qed.

Lemma handleError_no_write (js : Platform) (e : Rejection) (t : string)
  (c : Context) :
  writes_at_most 0 (_handleError js e t c).
Proof.
  unfold writes_at_most, _handleError. destruct e; simpl; unfold count; simpl; lia.
Qed.

Lemma save__one_write (c : Context) : writes_at_most 1 (_save c).
Proof.
  unfold _save. apply (writes_then 0 1).
  - apply maybeCheckpoint_no_write.
  - intros _ c1. unfold writes_at_most, saveModel, await. simpl.
    intro rp. destruct (settled rp); unfold count; simpl; lia.
Qed.

Lemma map_save__one_write (c : Context) :
  writes_at_most 1 (map_ Some _save c).
Proof.
  unfold map_. apply (writes_then 1 0); [apply save__one_write |].
  intros a c1. unfold writes_at_most, count. simpl. lia.
Qed.

Lemma timeConflict_one_write (js : Platform) (m : Contents.IModel)
  (c : Context) :
  writes_at_most 1 (_timeConflict js m c).
Proof.
  unfold _timeConflict. apply (writes_then 0 1).
  - unfold writes_at_most, fire, count. simpl. lia.
  - intros _ c1. apply (writes_then 0 1).
    + unfold writes_at_most, await. simpl. intro rp.
      destruct (settled rp); unfold count; simpl; lia.
    + intros label c2.
      destruct (_isDisposed c2);
        [unfold writes_at_most, count; simpl; lia |].
      destruct (String.eqb label "OVERWRITE");
        [apply map_save__one_write |].
      destruct (String.eqb label "REVERT").
      * apply (writes_weaken 0 1); [lia |].
        apply (writes_then 0 0); [apply revert_no_write |].
        intros a c3. unfold writes_at_most, count. simpl. lia.
      * unfold writes_at_most, count. simpl. lia.
Qed.

Lemma maybeSave_one_write (js : Platform) (c : Context) :
  writes_at_most 1 (_maybeSave js c).
Proof.
  unfold _maybeSave. apply (writes_then2 0 1).
  - unfold writes_at_most, await. simpl. intro rp.
    destruct (settled rp); unfold count; simpl; lia.
  - intros m c1.
    destruct (_isDisposed c1);
      [unfold writes_at_most, count; simpl; lia |].
    match goal with
    | |- context [if ?b then _ else _] => destruct b
    end.
    + apply timeConflict_one_write.
    + apply map_save__one_write.
  - intros e c1. destruct (response_status_is 404 e).
    + apply map_save__one_write.
    + unfold writes_at_most, count. simpl. lia.
Qed.

Lemma save_one_write (js : Platform) (c : Context) :
  writes_at_most 1 (save js c).
Proof.
  rewrite save_unfold. unfold settle_save.
  apply (writes_catch 1 0).
  - apply (writes_then 1 0).
    + destruct (negb (isCollaborative (model c))).
      * apply maybeSave_one_write.
      * apply map_save__one_write.
    + intros value c1.
      destruct (_isDisposed c1);
        [unfold writes_at_most, count; simpl; lia |].
      destruct value; unfold writes_at_most, count; simpl; lia.
  - intros e c1. apply handleError_no_write.
Qed.

(** Whatever the contents service and the user reply, one [save()]
    writes the file at most once, [revert()] never writes it, and [n]
    sequential saves write at most [n] times. *)
Theorem save_writes_at_most_once :
  forall (js : Platform) (W : Type) (h : Handler W) (w : W) (c : Context)
         (n : nat),
    (count is_write (trace_of (run h (save js c) w)) <= 1)%nat
    /\ count is_write (trace_of (run h (revert js c) w)) = 0%nat
    /\ (count is_write (trace_of (run h (saves js n c) w)) <= n)%nat.
Proof.
  intros js W h w c n. split; [| split].
  - exact (wp_run _ _ (save_one_write js c) W h w).
  - pose proof (wp_run _ _ (revert_no_write js c) W h w) as H.
    cbv beta in H. lia.
  - refine (wp_run _ (fun _ tr => (count is_write tr <= n)%nat) _ W h w).
    revert c. induction n as [| n IH]; intro c; simpl.
    + unfold count. simpl. lia.
    + change (writes_at_most (1 + n)
                (then_ (save js) (fun _ => saves js n) c)).
      apply writes_then; [apply save_one_write |].
      intros _ c1. apply IH.
Qed.

(** ** The checkpoint step of a save *)

(** When the cached contents model is not writable, or a checkpoint has
    been made, [_maybeCheckpoint] makes no request and [_save] is the
    write alone. *)
Theorem no_checkpoint_step :
  forall (W : Type) (h : Handler W) (w : W) (c : Context),
    Contents.writable (contentsModel c) = false \/ _hasCheckpointed c = true ->
    run h (_maybeCheckpoint c) w = (Fulfilled tt, c, w, [])
    /\ run h (_save c) w
       = run h (saveModel (factory c) (model c) (_path c) c) w.
Proof.
  intros W h w c H.
  assert (Hskip : negb (Contents.writable (contentsModel c))
                  || _hasCheckpointed c = true).
  { destruct H as [H | H]; rewrite H; simpl; auto using orb_true_r. }
  unfold _save, then_, _maybeCheckpoint. rewrite Hskip. simpl.
  split; reflexivity.
Qed.

Lemma no_checkpoint_step_witness :
  map is_write
    (trace_of (run Scenario.server
                 (_save (Scenario.context_for read_only_notes "text" true))
                 (Scenario.changed_at Scenario.t0 [])))
  = [true].
Proof.
  destruct (no_checkpoint_step Scenario.Server Scenario.server
              (Scenario.changed_at Scenario.t0 [])
              (Scenario.context_for read_only_notes "text" true)
              (or_introl eq_refl)) as [_ H].
  rewrite H. reflexivity.
Defined.

(** On a writable context that has not checkpointed, a listing of
    checkpoints rejected with anything but a response of status 403
    rejects [_save] with that error: the model is not written. *)
Theorem listing_failure_aborts_save :
  forall (W : Type) (h : Handler W) (w w1 : W) (c : Context)
         (rp : Reply (list Contents.ICheckpointModel)) (err : Rejection),
    Contents.writable (contentsModel c) = true ->
    _hasCheckpointed c = false ->
    h _ (listing c) w = (rp, w1) ->
    settled rp = inl err ->
    response_status_is 403 err = false ->
    run h (_save c) w
    = (Rejected err, meanwhile rp c, w1, [Called (listing c) rp]).
Proof.
  intros W h w w1 c rp err Hw Hflag Hlist Hs H403.
  unfold _save, then_, _maybeCheckpoint, catch_, then_, listCheckpoints,
    await, listing in *.
  rewrite Hw, Hflag. simpl. rewrite Hlist. simpl.
  unfold meanwhile. rewrite Hs. simpl. rewrite H403. simpl. reflexivity.
Qed.

Lemma listing_failure_aborts_save_witness :
  count is_write
    (trace_of (run Scenario.server (_save Scenario.editing) listing_broken))
  = 0%nat.
Proof.
  rewrite (listing_failure_aborts_save Scenario.Server Scenario.server
             listing_broken listing_broken Scenario.editing
             (Scenario.refused 500) (ResponseError 500 "" "refused")
             eq_refl eq_refl eq_refl eq_refl eq_refl).
  reflexivity.
Defined.

(** When the listing is empty and the creation of the checkpoint is
    rejected, [_hasCheckpointed] stays false; a response of status 403
    is swallowed and [_save] goes on to write the model, any other
    rejection rejects [_save] before the write. *)
Theorem checkpoint_creation_rejected :
  forall (W : Type) (h : Handler W) (w w1 w2 : W) (c : Context)
         (rp1 : Reply (list Contents.ICheckpointModel))
         (rp2 : Reply Contents.ICheckpointModel) (err : Rejection),
    Contents.writable (contentsModel c) = true ->
    _hasCheckpointed c = false ->
    h _ (listing c) w = (rp1, w1) ->
    settled rp1 = inr [] ->
    _isDisposed (meanwhile rp1 c) = false ->
    h _ (checkpoint_creation c) w1 = (rp2, w2) ->
    settled rp2 = inl err ->
    let c2 := meanwhile rp2 (meanwhile rp1 c) in
    _hasCheckpointed c2 = false
    /\ (response_status_is 403 err = true ->
        run h (_save c) w
        = prepend (Called (listing c) rp1)
            (prepend (Called (checkpoint_creation c) rp2)
               (run h (saveModel (factory c2) (model c2) (_path c2) c2) w2)))
    /\ (response_status_is 403 err = false ->
        run h (_save c) w
        = (Rejected err, c2, w2,
           [Called (listing c) rp1; Called (checkpoint_creation c) rp2])).
Proof.
  intros W h w w1 w2 c rp1 rp2 err Hw Hflag Hlist Hs1 Hd Hcreate Hs2 c2.
  assert (Hp1 : _path (meanwhile rp1 c) = _path c)
    by apply meanwhile_fields.
  assert (Hw1 : Contents.writable (contentsModel (meanwhile rp1 c)) = true).
  { unfold contentsModel in *.
    destruct (meanwhile_fields rp1 c) as (_ & _ & Hm & _).
    rewrite Hm. exact Hw. }
  split.
  - subst c2.
    destruct (meanwhile_fields rp2 (meanwhile rp1 c)) as (_ & H2 & _).
    destruct (meanwhile_fields rp1 c) as (_ & H1 & _).
    congruence.
  - unfold _save, then_, _maybeCheckpoint, catch_, then_, listCheckpoints,
      createCheckpoint, await, assign, listing, checkpoint_creation in *.
    rewrite Hw, Hflag. simpl. rewrite Hlist. simpl.
    unfold meanwhile in *. rewrite Hs1. simpl.
    rewrite Hd, Hw1. simpl. rewrite Hp1, Hcreate. simpl.
    rewrite Hs2. simpl.
    split; intro H403; rewrite H403; simpl; [| reflexivity].
    subst c2.
    match goal with
    | |- context [h ?R ?q w2] => destruct (h R q w2) as [rp3 w3]
    end.
    simpl. destruct (settled rp3); reflexivity.
Qed.

Lemma checkpoint_creation_rejected_witness :
  map is_write
    (trace_of (run (creation_refused 403) (_save Scenario.editing)
                 (Scenario.changed_at Scenario.t0 [])))
  = [false; false; true]
  /\ map is_write
       (trace_of (run (creation_refused 500) (_save Scenario.editing)
                    (Scenario.changed_at Scenario.t0 [])))
     = [false; false].
Proof.
  split.
  - destruct (checkpoint_creation_rejected Scenario.Server
                (creation_refused 403)
                (Scenario.changed_at Scenario.t0 [])
                (Scenario.changed_at Scenario.t0 [])
                (Scenario.changed_at Scenario.t0 [])
                Scenario.editing (Scenario.ok []) (Scenario.refused 403)
                (ResponseError 403 "" "refused")
                eq_refl eq_refl eq_refl eq_refl eq_refl eq_refl eq_refl)
      as (_ & H & _).
    rewrite (H eq_refl). reflexivity.
  - destruct (checkpoint_creation_rejected Scenario.Server
                (creation_refused 500)
                (Scenario.changed_at Scenario.t0 [])
                (Scenario.changed_at Scenario.t0 [])
                (Scenario.changed_at Scenario.t0 [])
                Scenario.editing (Scenario.ok []) (Scenario.refused 500)
                (ResponseError 500 "" "refused")
                eq_refl eq_refl eq_refl eq_refl eq_refl eq_refl eq_refl)
      as (_ & _ & H).
    rewrite (H eq_refl). reflexivity.
Defined.

(** ** Disposal while a save is in flight *)

(** When a context that is not collaborative is found disposed once the
    metadata has been fetched, [save()] makes no further request: the
    rejection 'Disposed' reaches the error handler, which opens the
    'File Save Error' dialog without a body, and neither the [dirty]
    flag nor the cached contents model is touched. *)
Theorem save_of_disposed_context :
  forall (js : Platform) (W : Type) (h : Handler W) (w w1 : W)
         (c : Context) (rp : Reply Contents.IModel) (remote : Contents.IModel),
    isCollaborative (model c) = false ->
    h _ (metadata_fetch c) w = (rp, w1) ->
    settled rp = inr remote ->
    _isDisposed (meanwhile rp c) = true ->
    run h (save js c) w
    = (Fulfilled tt, meanwhile rp c, w1,
       [Called (metadata_fetch c) rp;
        Fired (Dialog_opened "File Save Error" None [okButton])])
    /\ dirty (model (meanwhile rp c)) = dirty (model c)
    /\ _contentsModel (meanwhile rp c) = _contentsModel c.
Proof.
  intros js W h w w1 c rp remote Hc Hget Hs Hd.
  split.
  - rewrite (run_save js h w w1 c rp Hc Hget).
    unfold settle_save, catch_, then_, after_fetch.
    rewrite Hs, Hd. reflexivity.
  - destruct (meanwhile_fields rp c) as (_ & _ & Hm & _ & Hdirty & _).
    split; assumption.
Qed.

Lemma save_of_disposed_context_witness :
  trace_of (run Scenario.server
              (save Scenario.js (dispose Scenario.editing))
              (Scenario.changed_at Scenario.t0 []))
  = [Called (metadata_fetch (dispose Scenario.editing))
       (Scenario.ok (Scenario.without_content
                       (Scenario.file "notes.txt" Scenario.t0 JUndefined)));
     Fired (Dialog_opened "File Save Error" None [okButton])].
Proof.
  destruct (save_of_disposed_context Scenario.js Scenario.Server
              Scenario.server (Scenario.changed_at Scenario.t0 [])
              (Scenario.changed_at Scenario.t0 [])
              (dispose Scenario.editing)
              (Scenario.ok (Scenario.without_content
                              (Scenario.file "notes.txt" Scenario.t0
                                 JUndefined)))
              (Scenario.without_content
                 (Scenario.file "notes.txt" Scenario.t0 JUndefined))
              eq_refl eq_refl eq_refl eq_refl) as [H _].
  rewrite H. reflexivity.
Defined.

(** ** Time stamps that cannot be compared *)

(** When the cached [last_modified] is absent, or either time stamp is
    not a date, no conflict is declared whatever the server reports:
    [_maybeSave] goes on with [_save()]. *)
Theorem no_conflict_without_dates :
  forall (js : Platform) (W : Type) (h : Handler W) (w w1 : W)
         (c : Context) (rp : Reply Contents.IModel) (remote : Contents.IModel),
    h _ (metadata_fetch c) w = (rp, w1) ->
    settled rp = inr remote ->
    _isDisposed (meanwhile rp c) = false ->
    absent (Contents.last_modified (contentsModel c))
    \/ getTime js (Contents.last_modified (contentsModel c)) = None
    \/ getTime js (Contents.last_modified remote) = None ->
    run h (_maybeSave js c) w
    = prepend (Called (metadata_fetch c) rp)
        (run h (map_ Some _save (meanwhile rp c)) w1).
Proof.
  intros js W h w w1 c rp remote Hget Hs Hd Hdates.
  rewrite (run_maybeSave js h w w1 c rp Hget).
  unfold after_fetch. rewrite Hs, Hd.
  assert (Hm : _contentsModel (meanwhile rp c) = _contentsModel c)
    by apply meanwhile_fields.
  unfold contentsModel in *. rewrite Hm.
  replace (truthy (Contents.last_modified (_contentsModel c))
           && later_than_tolerance
                (getTime js (Contents.last_modified remote))
                (getTime js (Contents.last_modified (_contentsModel c))))
    with false; [reflexivity |].
  symmetry. destruct Hdates as [Ha | [Hn | Hn]].
  - apply truthy_false_iff in Ha. rewrite Ha. reflexivity.
  - rewrite Hn. unfold later_than_tolerance.
    destruct (getTime js (Contents.last_modified remote));
      apply andb_false_r.
  - rewrite Hn. apply andb_false_r.
Qed.

Lemma no_conflict_without_dates_witness :
  conflict_declared
    (trace_of (run Scenario.server
                 (_maybeSave Scenario.js
                    (Scenario.context_for unstamped "text" true))
                 (Scenario.changed_at Scenario.t0_10s []))) = false.
Proof.
  rewrite (no_conflict_without_dates Scenario.js Scenario.Server
             Scenario.server (Scenario.changed_at Scenario.t0_10s [])
             (Scenario.changed_at Scenario.t0_10s [])
             (Scenario.context_for unstamped "text" true)
             (Scenario.ok (Scenario.without_content
                             (Scenario.file "notes.txt" Scenario.t0_10s
                                JUndefined)))
             (Scenario.without_content
                (Scenario.file "notes.txt" Scenario.t0_10s JUndefined))
             eq_refl eq_refl eq_refl (or_introl (or_introl eq_refl))).
  reflexivity.
Defined.

(** ** The outcome of revert *)

(** When the fetch of the content is rejected, or the fetched content
    cannot populate the model, [revert()] makes no further request and
    reports the error under the title 'File Load Error'; the context is
    left as it was (apart from a disposal by its owner while the fetch
    was in flight). *)
Theorem revert_failure :
  forall (js : Platform) (W : Type) (h : Handler W) (w w1 : W)
         (c : Context) (rp : Reply Contents.IModel) (err : Rejection),
    h _ (fetch_full c) w = (rp, w1) ->
    settled rp = inl err
    \/ (exists contents,
          settled rp = inr contents
          /\ updateModel (model (meanwhile rp c)) contents = inl err) ->
    exists body,
      run h (revert js c) w
      = (Fulfilled tt, meanwhile rp c, w1,
         [Called (fetch_full c) rp;
          Fired (Dialog_opened "File Load Error" body [okButton])]).
Proof.
  intros js W h w w1 c rp err Hget H.
  unfold revert, catch_, then_, loadModel, then_, await, fetch_full in *.
  simpl. rewrite Hget. unfold meanwhile in *.
  destruct H as [Hs | (contents & Hs & Hu)]; rewrite Hs; simpl;
    rewrite ?Hu; simpl; unfold _handleError;
    destruct err; simpl; eexists; reflexivity.
Qed.

Lemma revert_failure_witness :
  exists body,
    run Scenario.server (revert Scenario.js Scenario.editing) failing
    = (Fulfilled tt, Scenario.editing, failing,
       [Called (fetch_full Scenario.editing) (Scenario.refused 500);
        Fired (Dialog_opened "File Load Error" body [okButton])]).
Proof.
  exact (revert_failure Scenario.js Scenario.Server Scenario.server
           failing failing Scenario.editing (Scenario.refused 500)
           (ResponseError 500 "" "refused") eq_refl (or_introl eq_refl)).
Defined.

(** When the fetch is fulfilled with contents that populate the model,
    [revert()] makes no other request and replaces the model, whether it
    was dirty or not.  If the context is not disposed by then, the
    cached contents model becomes the content-free copy of the fetched
    one; if it is disposed, the model has been replaced all the same and
    the cached contents model and [fileChanged] are left alone. *)
Theorem revert_success :
  forall (js : Platform) (W : Type) (h : Handler W) (w w1 : W)
         (c : Context) (rp : Reply Contents.IModel)
         (contents : Contents.IModel) (m : DocumentModel),
    h _ (fetch_full c) w = (rp, w1) ->
    settled rp = inr contents ->
    updateModel (model (meanwhile rp c)) contents = inr m ->
    let r := run h (revert js c) w in
    let c' := snd (result_of r) in
    trace_of r = [Called (fetch_full c) rp]
    /\ fst (result_of r) = Fulfilled tt
    /\ model c' = m
    /\ (_isDisposed (meanwhile rp c) = false ->
        _contentsModel c' = content_free contents)
    /\ (_isDisposed (meanwhile rp c) = true ->
        _contentsModel c' = _contentsModel c
        /\ _fileChanged c' = _fileChanged (meanwhile rp c)).
Proof.
  intros js W h w w1 c rp contents m Hget Hs Hu r c'. subst c' r.
  destruct (meanwhile_fields rp c) as (_ & _ & Hcm & _).
  unfold revert, catch_, then_, loadModel, then_, await, fetch_full in *.
  simpl. rewrite Hget. unfold meanwhile in *. rewrite Hs. simpl.
  rewrite Hu. simpl.
  destruct (_isDisposed (if disposed_meanwhile rp then dispose c else c))
    eqn:Hd; simpl.
  - repeat split; try reflexivity; intros; try discriminate.
    + exact Hcm.
  - destruct (updateContentsModel_fields contents
                (set_model m (if disposed_meanwhile rp then dispose c else c)))
      as (Hc & _ & _ & _ & Hm & _).
    repeat split; try reflexivity; intros; try discriminate;
      try assumption.
Qed.

Lemma revert_success_witness :
  value (model (snd (result_of
    (run Scenario.server (revert Scenario.js Scenario.editing)
       (Scenario.changed_at Scenario.t0_10s [])))))
  = JString "remote text"
  /\ Contents.last_modified (_contentsModel (snd (result_of
       (run Scenario.server (revert Scenario.js Scenario.editing)
          (Scenario.changed_at Scenario.t0_10s [])))))
     = Some Scenario.t0_10s.
Proof.
  destruct (revert_success Scenario.js Scenario.Server Scenario.server
              (Scenario.changed_at Scenario.t0_10s [])
              (Scenario.changed_at Scenario.t0_10s [])
              Scenario.editing
              (Scenario.ok (Scenario.file "notes.txt" Scenario.t0_10s
                              (JString "remote text")))
              (Scenario.file "notes.txt" Scenario.t0_10s
                 (JString "remote text"))
              (set_dirty false
                 (fromString "remote text" (model Scenario.editing)))
              eq_refl eq_refl eq_refl)
    as (_ & _ & Hm & Hc & _).
  rewrite Hm, (Hc eq_refl). split; reflexivity.
Defined.

(** ** The answers to the conflict dialog *)

(** After the warning and the dialog, [_timeConflict] is rejected with
    'Disposed' when the context was disposed meanwhile; otherwise the
    answer OVERWRITE goes on with [_save()], the answer REVERT with
    [revert()], settling with the metadata fetched before, and any other
    answer settles with [undefined] without any request. *)
Theorem conflict_answers :
  forall (js : Platform) (W : Type) (h : Handler W) (w w1 : W)
         (c : Context) (remote : Contents.IModel)
         (rp : Reply string) (label : string),
    h _ conflict_dialog w = (rp, w1) ->
    settled rp = inr label ->
    let c1 := meanwhile rp c in
    let shown (x : Outcome (option Contents.IModel) * Context * W
                   * list Event) :=
      prepend (Fired Console_warn) (prepend (Called conflict_dialog rp) x) in
    (_isDisposed c1 = true ->
     run h (_timeConflict js remote c) w
     = shown (Rejected (Reason "Disposed"), c1, w1, []))
    /\ (_isDisposed c1 = false ->
        (label = "OVERWRITE" ->
         run h (_timeConflict js remote c) w
         = shown (run h (map_ Some _save c1) w1))
        /\ (label = "REVERT" ->
            run h (_timeConflict js remote c) w
            = shown (reverted_with remote (run h (revert js c1) w1)))
        /\ (label <> "OVERWRITE" -> label <> "REVERT" ->
            run h (_timeConflict js remote c) w
            = shown (Fulfilled None, c1, w1, []))).
Proof.
  intros js W h w w1 c remote rp label Hdlg Hs c1 shown. subst c1 shown.
  unfold conflict_dialog in *.
  assert (Hrun : run h (_timeConflict js remote c) w
                 = prepend (Fired Console_warn)
                     (prepend (Called conflict_dialog rp)
                        (run h
                           ((fun c0 =>
                               if _isDisposed c0
                               then reject (Reason "Disposed") c0
                               else if String.eqb label "OVERWRITE"
                                    then map_ Some _save c0
                                    else if String.eqb label "REVERT"
                                         then then_ (revert js)
                                                (fun _ => resolve (Some remote))
                                                c0
                                         else resolve None c0)
                              (meanwhile rp c)) w1))).
  { unfold _timeConflict, then_, fire, await, conflict_dialog. simpl.
    rewrite Hdlg. unfold meanwhile. rewrite Hs. simpl.
    match goal with
    | |- context [run h ?p w1] => destruct (run h p w1) as [[x w2] tr]
    end.
    reflexivity. }
  rewrite Hrun. cbv beta. split.
  - intro Hd. rewrite Hd. reflexivity.
  - intro Hd. rewrite Hd. split; [| split].
    + intros ->. reflexivity.
    + intros ->. simpl String.eqb. cbv iota.
      unfold then_. rewrite run_bindP.
      pose proof (wp_run _ _ (revert_fulfils js (meanwhile rp c)) W h w1)
        as Hf.
      destruct (run h (revert js (meanwhile rp c)) w1) as [[[o c2] w2] tr].
      unfold result_of in Hf. simpl in Hf. subst o. simpl.
      rewrite app_nil_r. reflexivity.
    + intros Ho Hr.
      apply String.eqb_neq in Ho. apply String.eqb_neq in Hr.
      rewrite Ho, Hr. reflexivity.
Qed.

Lemma conflict_answers_witness :
  map is_write
    (trace_of (run Scenario.server
                 (_timeConflict Scenario.js Scenario.notes Scenario.editing)
                 (Scenario.changed_at Scenario.t0_600 ["OVERWRITE"])))
  = [false; false; false; false; true].
Proof.
  destruct (conflict_answers Scenario.js Scenario.Server Scenario.server
              (Scenario.changed_at Scenario.t0_600 ["OVERWRITE"])
              (Scenario.changed_at Scenario.t0_600 [])
              Scenario.editing Scenario.notes
              (Scenario.ok "OVERWRITE") "OVERWRITE" eq_refl eq_refl)
    as (_ & H).
  destruct (H eq_refl) as (Ho & _).
  rewrite (Ho eq_refl). reflexivity.
Defined.

(** When [save()] finds a conflict and the dialog is answered REVERT,
    nothing is written: the content is fetched and replaces the model,
    and when the save settles the model is clean, even if line endings
    were converted, and the cached contents model is the content-free
    copy of the metadata fetched for the comparison. *)
Theorem revert_on_conflict :
  forall (js : Platform) (W : Type) (h : Handler W) (w w1 w2 w3 : W)
         (c : Context) (remote contents : Contents.IModel)
         (m : DocumentModel),
    isCollaborative (model c) = false ->
    _isDisposed c = false ->
    truthy (Contents.last_modified (contentsModel c))
    && later_than_tolerance
         (getTime js (Contents.last_modified remote))
         (getTime js (Contents.last_modified (contentsModel c))) = true ->
    h _ (metadata_fetch c) w
      = ({| disposed_meanwhile := false; settled := inr remote |}, w1) ->
    h _ conflict_dialog w1
      = ({| disposed_meanwhile := false; settled := inr "REVERT" |}, w2) ->
    h _ (fetch_full c) w2
      = ({| disposed_meanwhile := false; settled := inr contents |}, w3) ->
    updateModel (model c) contents = inr m ->
    let r := run h (save js c) w in
    let c' := snd (result_of r) in
    map is_write (trace_of r) = [false; false; false; false]
    /\ fst (result_of r) = Fulfilled tt
    /\ model c' = set_dirty false m
    /\ _contentsModel c' = content_free remote.
Proof.
  intros js W h w w1 w2 w3 c remote contents m Hc Hd Hconf Hget Hdlg Hfull
    Hu r c'.
  subst c' r. rewrite (run_save js h w w1 c _ Hc Hget).
  unfold settle_save, catch_, then_, after_fetch, meanwhile. simpl.
  rewrite Hd. unfold contentsModel in *. rewrite Hconf.
  unfold _timeConflict, then_, fire, await, conflict_dialog in *. simpl.
  rewrite Hdlg. simpl. rewrite Hd. simpl.
  unfold revert, catch_, then_, loadModel, then_, await, fetch_full in *.
  simpl. rewrite Hfull. simpl. rewrite Hu. simpl. rewrite Hd. simpl.
  destruct (updateContentsModel_fields contents (set_model m c))
    as (_ & _ & _ & Hdis & Hm & _).
  simpl in Hdis, Hm. rewrite Hdis, Hd. simpl.
  match goal with
  | |- context [_updateContentsModel remote ?x] =>
      destruct (updateContentsModel_fields remote x)
        as (Hc2 & _ & _ & _ & Hm2 & _)
  end.
  simpl in Hm2.
  repeat split; try reflexivity; try assumption.
  rewrite Hm2, Hm. reflexivity.
Qed.

Lemma revert_on_conflict_witness :
  value (model (snd (result_of
    (run Scenario.server (save Scenario.js Scenario.editing)
       (Scenario.changed_at Scenario.t0_10s ["REVERT"])))))
  = JString "remote text"
  /\ dirty (model (snd (result_of
       (run Scenario.server (save Scenario.js Scenario.editing)
          (Scenario.changed_at Scenario.t0_10s ["REVERT"])))))
     = false.
Proof.
  destruct (revert_on_conflict Scenario.js Scenario.Server Scenario.server
              (Scenario.changed_at Scenario.t0_10s ["REVERT"])
              (Scenario.changed_at Scenario.t0_10s ["REVERT"])
              (Scenario.changed_at Scenario.t0_10s [])
              (Scenario.changed_at Scenario.t0_10s [])
              Scenario.editing
              (Scenario.without_content
                 (Scenario.file "notes.txt" Scenario.t0_10s JUndefined))
              (Scenario.file "notes.txt" Scenario.t0_10s
                 (JString "remote text"))
              (set_dirty false
                 (fromString "remote text" (model Scenario.editing)))
              eq_refl eq_refl eq_refl eq_refl eq_refl eq_refl eq_refl)
    as (_ & _ & Hm & _).
  rewrite Hm. split; reflexivity.
Defined.

(** ** Restoring a checkpoint *)

Lemma last_checkpoint (earlier : list Contents.ICheckpointModel)
  (cp : Contents.ICheckpointModel) :
  nth_error (earlier ++ [cp]) (length (earlier ++ [cp]) - 1) = Some cp
  /\ (length (earlier ++ [cp]) =? 0)%nat = false.
Proof.
  rewrite length_app. simpl. split.
  - replace (length earlier + 1 - 1)%nat with (length earlier) by lia.
    rewrite nth_error_app2 by lia. rewrite Nat.sub_diag. reflexivity.
  - apply Nat.eqb_neq. lia.
Qed.

(** With a checkpoint id, [restoreCheckpoint] makes one request, the
    restoration of that checkpoint for the path of the context, and
    settles as that request does: a rejection is passed on to the
    caller, not reported. *)
Theorem restore_given_checkpoint :
  forall (W : Type) (h : CheckpointHandler W) (w w1 : W) (c : Context)
         (checkpointID : string) (rp : Reply unit),
    checkpointID <> "" ->
    h _ (restoration c checkpointID) w = (rp, w1) ->
    runC h (restoreCheckpoint (Some checkpointID) c) w
    = (outcome_of rp, meanwhile rp c, w1,
       [Asked (restoration c checkpointID) rp]).
Proof.
  intros W h w w1 c id rp Hne Hr.
  unfold restoreCheckpoint, restoration, outcome_of, meanwhile in *.
  simpl truthy.
  replace (negb (String.eqb id "")) with true
    by (symmetry; apply negb_true_iff, String.eqb_neq; exact Hne).
  simpl. rewrite Hr. destruct (settled rp); reflexivity.
Qed.

(** Without a checkpoint id (or with the empty string)
    [restoreCheckpoint] lists the checkpoints first.  A rejected listing
    is passed on to the caller.  If the context is disposed by then, or
    the list is empty, nothing is restored and the promise is fulfilled.
    Otherwise the last checkpoint of the list is restored, and the
    promise settles as that request does. *)
Theorem restore_latest_checkpoint :
  forall (W : Type) (h : CheckpointHandler W) (w w1 : W) (c : Context)
         (checkpointId : option string)
         (rp : Reply (list Contents.ICheckpointModel)),
    absent checkpointId ->
    h _ (Core (listing c)) w = (rp, w1) ->
    let c1 := meanwhile rp c in
    (forall err,
       settled rp = inl err ->
       runC h (restoreCheckpoint checkpointId c) w
       = (Rejected err, c1, w1, [Asked (Core (listing c)) rp]))
    /\ (forall checkpoints,
          settled rp = inr checkpoints ->
          _isDisposed c1 = true \/ checkpoints = [] ->
          runC h (restoreCheckpoint checkpointId c) w
          = (Fulfilled tt, c1, w1, [Asked (Core (listing c)) rp]))
    /\ (forall earlier cp rp2 w2,
          settled rp = inr (earlier ++ [cp])%list ->
          _isDisposed c1 = false ->
          h _ (restoration c (Contents.id cp)) w1 = (rp2, w2) ->
          runC h (restoreCheckpoint checkpointId c) w
          = (outcome_of rp2, meanwhile rp2 c1, w2,
             [Asked (Core (listing c)) rp;
              Asked (restoration c (Contents.id cp)) rp2])).
Proof.
  intros W h w w1 c checkpointId rp Habs Hlist c1. subst c1.
  destruct Habs as [-> | ->];
    unfold restoreCheckpoint, listCheckpoints, await, listing, restoration,
      outcome_of, meanwhile in *;
    simpl; rewrite Hlist;
    (split; [| split]);
    [ intros err Hs; rewrite Hs; reflexivity
    | intros cps Hs Hor; rewrite Hs; simpl;
      destruct Hor as [Hd | ->];
      [ rewrite Hd; reflexivity | rewrite orb_true_r; reflexivity ]
    | intros earlier cp rp2 w2 Hs Hd Hr; rewrite Hs; simpl; rewrite Hd;
      destruct (last_checkpoint earlier cp) as [Hnth Hlen];
      rewrite Hlen, Hnth; simpl; rewrite Hr;
      destruct (settled rp2); reflexivity
    | intros err Hs; rewrite Hs; reflexivity
    | intros cps Hs Hor; rewrite Hs; simpl;
      destruct Hor as [Hd | ->];
      [ rewrite Hd; reflexivity | rewrite orb_true_r; reflexivity ]
    | intros earlier cp rp2 w2 Hs Hd Hr; rewrite Hs; simpl; rewrite Hd;
      destruct (last_checkpoint earlier cp) as [Hnth Hlen];
      rewrite Hlen, Hnth; simpl; rewrite Hr;
      destruct (settled rp2); reflexivity ].
Qed.

Lemma restore_given_checkpoint_witness :
  runC checkpoint_server (restoreCheckpoint (Some "first") Scenario.editing)
    two_checkpoints
  = (Fulfilled tt, Scenario.editing, two_checkpoints,
     [Asked (restoration Scenario.editing "first") (Scenario.ok tt)]).
Proof.
  assert (Hne : "first" <> "") by discriminate.
  exact (restore_given_checkpoint Scenario.Server checkpoint_server
           two_checkpoints two_checkpoints Scenario.editing "first"
           (Scenario.ok tt) Hne eq_refl).
Defined.

Lemma restore_latest_checkpoint_witness :
  runC checkpoint_server (restoreCheckpoint None Scenario.editing)
    two_checkpoints
  = (Fulfilled tt, Scenario.editing, two_checkpoints,
     [Asked (Core (listing Scenario.editing))
        (Scenario.ok (Scenario.checkpoints two_checkpoints));
      Asked (restoration Scenario.editing "second") (Scenario.ok tt)])
  /\ runC checkpoint_server (restoreCheckpoint (Some "") Scenario.editing)
       (Scenario.changed_at Scenario.t0 [])
     = (Fulfilled tt, Scenario.editing, Scenario.changed_at Scenario.t0 [],
        [Asked (Core (listing Scenario.editing)) (Scenario.ok [])]).
Proof.
  split.
  - destruct (restore_latest_checkpoint Scenario.Server checkpoint_server
                two_checkpoints two_checkpoints Scenario.editing None
                (Scenario.ok (Scenario.checkpoints two_checkpoints))
                (or_introl eq_refl) eq_refl) as (_ & _ & H).
    exact (H [ {| Contents.id := "first";
                  Contents.checkpoint_last_modified := Scenario.t0 |} ]
             {| Contents.id := "second";
                Contents.checkpoint_last_modified := Scenario.t0_600 |}
             (Scenario.ok tt) two_checkpoints eq_refl eq_refl eq_refl).
  - destruct (restore_latest_checkpoint Scenario.Server checkpoint_server
                (Scenario.changed_at Scenario.t0 [])
                (Scenario.changed_at Scenario.t0 []) Scenario.editing
                (Some "") (Scenario.ok [])
                (or_intror eq_refl) eq_refl) as (_ & H & _).
    exact (H [] eq_refl (or_intror eq_refl)).
Defined.

(** ** The autosave handler beyond the interval *)

(** When the timeout callback finds the model clean or read-only, or a
    dialog showing, it makes no request and leaves the context alone;
    it has only restarted the timer, so the interval is kept. *)
Theorem autosave_skipped :
  forall (js : Platform) (W : Type) (h : Handler W) (w : W)
         (start finish : Z) (hs : SaveHandler.State) (c : Context),
    dirty (model c) = false
    \/ readOnly (model c) = true
    \/ SaveHandler._inDialog hs = true ->
    run h (SaveHandler._save js start finish hs c) w
    = ((SaveHandler._setTimer hs, c), w, [])
    /\ SaveHandler._interval (SaveHandler._setTimer hs)
       = SaveHandler._interval hs
    /\ SaveHandler._autosaveTimer (SaveHandler._setTimer hs)
       = (if SaveHandler._isActive hs
          then Some (SaveHandler._interval hs) else None).
Proof.
  intros js W h w start finish hs c H.
  destruct (setTimer_fields hs) as (Hi & _ & _ & Hg).
  split; [| split].
  - unfold SaveHandler._save. rewrite Hg.
    replace (negb (dirty (model c)) || readOnly (model c)
             || SaveHandler._inDialog hs) with true; [reflexivity |].
    symmetry. destruct H as [H | [H | H]]; rewrite H; simpl;
      auto using orb_true_r.
    destruct (negb (dirty (model c))); reflexivity.
  - exact Hi.
  - unfold SaveHandler._setTimer. simpl.
    destruct (SaveHandler._isActive hs); reflexivity.
Qed.

Lemma autosave_skipped_witness :
  run Scenario.server
    (SaveHandler._save Scenario.js 0 1000 default_handler CRLF_context)
    (Scenario.changed_at Scenario.t0_10s [])
  = ((SaveHandler._setTimer default_handler, CRLF_context),
     Scenario.changed_at Scenario.t0_10s [], []).
Proof.
  apply (autosave_skipped Scenario.js Scenario.Server Scenario.server
           (Scenario.changed_at Scenario.t0_10s []) 0 1000
           default_handler CRLF_context).
  left. reflexivity.
Defined.

Lemma well_timed_setTimer (h : SaveHandler.State) :
  SaveHandler._minInterval h <= SaveHandler._interval h ->
  well_timed (SaveHandler._setTimer h).
Proof.
  intro H. unfold well_timed, SaveHandler._setTimer. simpl.
  destruct (SaveHandler._isActive h) eqn:E; simpl; split; auto.
  - intros d Hd. injection Hd as <-. auto.
  - intros d Hd. discriminate.
Qed.

Lemma well_timed_dispose (h : SaveHandler.State) :
  well_timed h -> well_timed (SaveHandler.dispose h).
Proof.
  intros [Hm Ht]. unfold SaveHandler.dispose.
  destruct (SaveHandler._isDisposed h); [split; assumption |].
  split; simpl; [exact Hm | intros d Hd; discriminate].
Qed.

Lemma well_timed_deliver (before after : Context) (h : SaveHandler.State) :
  well_timed h -> well_timed (SaveHandler.deliver before after h).
Proof.
  intro H. unfold SaveHandler.deliver.
  assert (H1 : well_timed
                 (if (length (_fileChanged before)
                      <? length (_fileChanged after))%nat
                  then SaveHandler._setTimer h else h)).
  { destruct (_ <? _)%nat; [| exact H].
    apply well_timed_setTimer. apply H. }
  destruct (_disposed before <? _disposed after)%nat; [| exact H1].
  apply well_timed_dispose. exact H1.
Qed.

(** The handler keeps its timing sound: it is so when constructed, and
    [start], [stop], [dispose], the [saveInterval] setter and the
    timeout callback, whatever happens during its save, keep it so. *)
Theorem handler_stays_well_timed :
  forall (saveInterval : option Z),
    well_timed (SaveHandler.constructor saveInterval)
    /\ (forall hs : SaveHandler.State,
          well_timed hs ->
          well_timed (SaveHandler.start hs)
          /\ well_timed (SaveHandler.stop hs)
          /\ well_timed (SaveHandler.dispose hs)
          /\ (forall value, well_timed (SaveHandler.set_saveInterval value hs))
          /\ (forall (js : Platform) (W : Type) (h : Handler W) (w : W)
                     (start finish : Z) (c : Context),
                well_timed
                  (fst (result_of
                     (run h (SaveHandler._save js start finish hs c) w))))).
Proof.
  intro saveInterval. split.
  - unfold well_timed, SaveHandler.constructor. simpl.
    split; [lia | intros d Hd; discriminate].
  - intros hs [Hm Ht]. split; [| split; [| split; [| split]]].
    + unfold SaveHandler.start. apply well_timed_setTimer. exact Hm.
    + unfold well_timed, SaveHandler.stop. simpl.
      split; [exact Hm | intros d Hd; discriminate].
    + apply well_timed_dispose. split; assumption.
    + intro v. unfold SaveHandler.set_saveInterval. simpl.
      destruct (SaveHandler._isActive hs) eqn:Ea.
      * apply well_timed_setTimer. simpl. lia.
      * unfold well_timed. simpl. split; [lia |].
        intros d Hd. destruct (Ht d Hd) as [_ Hact]. congruence.
    + intros js W h w start finish c.
      assert (H0 : well_timed (SaveHandler._setTimer hs))
        by (apply well_timed_setTimer; exact Hm).
      unfold SaveHandler._save.
      destruct (negb (dirty (model c)) || readOnly (model c)
                || SaveHandler._inDialog (SaveHandler._setTimer hs));
        [exact H0 |].
      rewrite run_bindP.
      destruct (run h (save js c) w) as [[[o c'] w1] tr1].
      pose proof (well_timed_deliver c c' _ H0) as H1.
      destruct o as [[] | e]; simpl; [| exact H1].
      destruct (SaveHandler._isDisposed
                  (SaveHandler.deliver c c' (SaveHandler._setTimer hs)));
        simpl; [exact H1 |].
      apply well_timed_setTimer. simpl. lia.
Qed.

Lemma handler_stays_well_timed_witness :
  well_timed
    (SaveHandler.set_saveInterval 5
       (SaveHandler.start (SaveHandler.constructor None)))
  /\ well_timed (fst (autosave_taking 50000)).
Proof.
  destruct (handler_stays_well_timed None) as [H0 H].
  destruct (H _ H0) as (Hstart & _).
  destruct (H _ Hstart) as (_ & _ & _ & Hset & Hsave).
  split; [apply Hset | apply Hsave].
Defined.

(** ** Requests to the document manager *)

Module ManagerLifecycle.

Import DocumentManager.

(** Whatever the constructor of the context does: a request that
    returns [undefined] or throws leaves the manager exactly as it was,
    and it throws what the constructor throws, in [open] only after the
    lookup has found no context.  A request that returns a widget has
    opened it last; either it is an [open] whose lookup found the
    context of the widget, and then the table and the started calls are
    as before, or the constructor returned, in [open] after the lookup
    found no context, and then the new context is last in the table
    with the requested path and its [fromStore] (for [open]) or [save]
    (for [createNew]) has been started. *)
Theorem document_request_result :
  forall (Context_class : ContextClass) (which : Which) (p wn : string)
         (m : State),
    let r := _createOrOpenDocument Context_class which p wn m in
    match fst r with
    | inr None => snd r = m
    | inl error =>
        snd r = m
        /\ exists f,
             Context_class None p f = Some error
             /\ (which = which_open ->
                 _findContext p (factory_name f) m = None)
    | inr (Some w) =>
        opened (snd r) = (opened m ++ [w])%list
        /\ exists f,
             (which = which_open
              /\ (exists context,
                    _findContext p (factory_name f) m = Some context
                    /\ In context (_contexts m)
                    /\ path context = p
                    /\ widget_context w = uid context)
              /\ _contexts (snd r) = _contexts m
              /\ started (snd r) = started m)
             \/ (Context_class None p f = None
                 /\ (which = which_open ->
                     _findContext p (factory_name f) m = None)
                 /\ widget_context w = created m
                 /\ _contexts (snd r)
                    = (_contexts m
                       ++ [ {| uid := created m; path := p;
                               factoryName := factory_name f |} ])%list
                 /\ started (snd r)
                    = (started m
                       ++ [ match which with
                            | which_open => fromStore (created m)
                            | which_create => save (created m)
                            end ])%list)
    end.
Proof.
  intros Context_class which p wn m r. subst r.
  unfold _createOrOpenDocument.
  destruct (_widgetFactoryFor p wn m) as [wf |]; [| reflexivity].
  match goal with
  | |- context [getModelFactory _ ?n] =>
      destruct (getModelFactory (registry m) n) as [f |]; [| reflexivity]
  end.
  unfold _createContext, services.
  destruct which.
  - destruct (_findContext p (factory_name f) m) as [context |] eqn:Ef; simpl.
    + split; [reflexivity |]. exists f. left.
      split; [reflexivity |]. split; [| split; reflexivity].
      exists context. split; [exact Ef |].
      unfold _findContext in Ef. apply find_some in Ef.
      destruct Ef as [Hin Hp]. apply andb_true_iff in Hp.
      destruct Hp as [_ Hp]. apply String.eqb_eq in Hp.
      repeat split; assumption.
    + destruct (Context_class None p f) as [e |] eqn:Ec; simpl.
      * split; [reflexivity |]. exists f. split; [exact Ec |].
        intros _. exact Ef.
      * split; [reflexivity |]. exists f. right.
        split; [exact Ec |]. split; [intros _; exact Ef |].
        repeat split.
  - destruct (Context_class None p f) as [e |] eqn:Ec; simpl.
    + split; [reflexivity |]. exists f. split; [exact Ec |].
      intro H. discriminate.
    + split; [reflexivity |]. exists f. right.
      split; [exact Ec |]. split; [intro H; discriminate |].
      repeat split.
Qed.

Lemma document_request_result_witness :
  createNew reads_manager "a.txt" "default"
    (constructor editor_registry service_manager)
  = (inl (JsError "Cannot read property 'contents' of undefined"),
     constructor editor_registry service_manager).
Proof.
  pose proof (document_request_result reads_manager which_create
                "a.txt" "default"
                (constructor editor_registry service_manager)) as H.
  cbv zeta in H. unfold createNew.
  destruct (_createOrOpenDocument reads_manager which_create "a.txt"
              "default" (constructor editor_registry service_manager))
    as [[e | [w |]] m'] eqn:E; simpl in H.
  - destruct H as (-> & f & Hf & _).
    unfold reads_manager in Hf. injection Hf as <-. reflexivity.
  - destruct H as (_ & f & [(Hw & _) | (Hc & _)]); discriminate.
  - vm_compute in E. discriminate.
Defined.

(** Whatever the constructor of the context does, also when it returns
    with an undefined manager: along [open] calls and context disposals,
    the paths of the contexts unchanged, the table holds at most one
    context per (path, model factory name), as [open] creates a context
    only after its lookup has found none. *)
Theorem open_looks_up_first :
  forall (Context_class : ContextClass) (registry : DocumentRegistry)
         (services : ServiceManager) (calls : list Call),
    forallb open_or_disposal calls = true ->
    unique_contexts (after Context_class registry services calls).
Proof.
  intros Context_class registry services calls. unfold after.
  assert (H0 : unique_contexts (constructor registry services))
    by (unfold unique_contexts; simpl; constructor).
  revert H0. generalize (constructor registry services).
  induction calls as [| c calls IH]; simpl; intros m Hm Hcalls.
  - exact Hm.
  - apply andb_true_iff in Hcalls. destruct Hcalls as [Hc Hrest].
    apply IH; [| exact Hrest].
    destruct c as [p wn | p wn | u | u p]; simpl in *; try discriminate.
    + apply ManagerFacts.open_unique. exact Hm.
    + unfold unique_contexts. simpl.
      apply ManagerFacts.removeFirstOf_NoDup. exact Hm.
Qed.

Lemma open_looks_up_first_witness :
  unique_contexts
    (after any_manager editor_registry service_manager
       [call_open "a.txt" "default";
        call_open "a.txt" "Editor";
        call_open "b.txt" "default";
        context_disposed 0;
        call_open "a.txt" "default"])
  /\ map key
       (_contexts
          (after any_manager editor_registry service_manager
             [call_open "a.txt" "default";
              call_open "a.txt" "Editor";
              call_open "b.txt" "default";
              context_disposed 0;
              call_open "a.txt" "default"]))
     = [("b.txt", "text"); ("a.txt", "text")].
Proof.
  split; [| reflexivity].
  apply (open_looks_up_first any_manager editor_registry service_manager
           [call_open "a.txt" "default";
            call_open "a.txt" "Editor";
            call_open "b.txt" "default";
            context_disposed 0;
            call_open "a.txt" "default"]).
  reflexivity.
Defined.

End ManagerLifecycle.
